(** * mllaunchpad data sources and sinks

    A shallow embedding of [mllaunchpad/datasources.py]: the file-backed
    and the Oracle-backed data sources and data sinks, their constructors,
    their four access methods and their teardown.

    Python dictionaries are finite maps ([gmap string value]); a method is
    a computation in a state-and-exception monad over the instance it is
    called on, so that item assignments on [self.options] persist, also
    when the method raises afterwards.  Calls into pandas, the file system
    and the database driver are not interpreted: a method that reaches
    such a call returns its description (the primitive and the exact
    arguments it is given). *)

From Stdlib Require Import ZArith Ascii String List.
From stdpp Require Import base option gmap strings list fin_maps pretty.

Open Scope string_scope.

(** ** Python values, dictionaries, exceptions *)

(** Scalar values found in configuration blocks and keyword options. *)
Inductive value :=
| VNone
| VBool (b : bool)
| VInt (z : Z)
| VStr (s : string).

#[global] Instance value_eq_dec : EqDecision value.
Proof. solve_decision. Defined.

(** A dictionary with string keys, as used for [**kw_options]. *)
Abbreviation kwargs := (gmap string value) (only parsing).

(** A configuration block: its scalar entries ([type], [path], [query],
    [table], [host], ...) and its optional [options] sub-dictionary. *)
Record config_block := ConfigBlock {
  entries : gmap string value;
  options_entry : option (gmap string value)
}.

Inductive exc_class :=
| TypeError
| NotImplementedError
| KeyError
| AttributeError
| ImportError
| MissingCredentialError
| DatabaseError.

#[global] Instance exc_class_eq_dec : EqDecision exc_class.
Proof. solve_decision. Defined.

Record pyexc := Exc { exc_type : exc_class; exc_msg : string }.

#[global] Instance pyexc_eq_dec : EqDecision pyexc.
Proof. solve_decision. Defined.

Inductive result (A : Type) :=
| Ok (a : A)
| Err (e : pyexc).
Arguments Ok {A} a.
Arguments Err {A} e.

#[global] Instance result_ret : MRet result := fun A a => Ok a.
#[global] Instance result_bind : MBind result := fun A B f r =>
  match r with
  | Ok a => f a
  | Err e => Err e
  end.

(** [d[key]] on a scalar entry of a block: subscription raises
    [KeyError] on an absent key. *)
Definition getitem (d : config_block) (key : string) : result value :=
  match entries d !! key with
  | Some v => Ok v
  | None => Err (Exc KeyError key)
  end.

(** [key in d] *)
Definition contains (d : gmap string value) (key : string) : bool :=
  bool_decide (is_Some (d !! key)).

(** [v in l] for a list of string literals [l]. *)
Definition py_in (v : value) (l : list string) : bool :=
  existsb (fun s => bool_decide (v = VStr s)) l.

(** The double quote character, and a method name between double quotes
    as the messages of the source write it. *)
Definition dq : string := String (ascii_of_nat 34) EmptyString.
Definition quoted (s : string) : string := dq +:+ s +:+ dq.

(** [names needle msg]: the message contains [needle]. *)
Definition names (needle msg : string) : Prop :=
  ∃ pre post, msg = pre +:+ needle +:+ post.

(** ** The instance monad *)

(** A method body runs on the instance [S]; it returns a value or raises,
    and in both cases leaves the instance as the body has mutated it. *)
Definition M (S A : Type) : Type := S -> result A * S.

#[global] Instance M_ret {S} : MRet (M S) := fun A a s => (Ok a, s).
#[global] Instance M_bind {S} : MBind (M S) := fun A B f m s =>
  match m s with
  | (Ok a, s') => f a s'
  | (Err e, s') => (Err e, s')
  end.

Definition raise {S A} (e : pyexc) : M S A := fun s => (Err e, s).
Definition gets {S A} (f : S -> A) : M S A := fun s => (Ok (f s), s).
Definition modify {S} (f : S -> S) : M S unit := fun s => (Ok tt, f s).
Definition lift {S A} (r : result A) : M S A := fun s => (r, s).

(** ** Payloads and library calls *)

(** A pandas dataframe, seen by this layer only as a payload. *)
Record DataFrame := {
  columns : list string;
  rows : list (list value)
}.

(** [Raw]: a text string or a byte sequence. *)
Inductive Raw :=
| RawStr (s : string)
| RawBytes (b : list Byte.byte).

(** A database connection handle. *)
Inductive db_connection := Connection (handle : nat).

#[global] Instance db_connection_eq_dec : EqDecision db_connection.
Proof. solve_decision. Defined.

(** The library primitive a method hands over to, with its arguments.
    [kw] is the keyword dictionary the primitive receives. *)
Inductive libcall :=
| pd_read_csv (filepath : value) (kw : gmap string value)
| to_csv (df : DataFrame) (filepath : value) (kw : gmap string value)
  (** [open(path, mode)], then [fh.read] with [kw] as keywords *)
| open_read (filepath : value) (mode : string) (kw : gmap string value)
  (** [open] on path and mode with [kw] as keywords, then [fh.write(data)] *)
| open_write (filepath : value) (mode : string) (kw : gmap string value)
    (data : Raw)
  (** [pd.read_sql] on the query with [con], [params] and [kw] as
      keywords, then [df.fillna(np.nan, inplace=True)] *)
| pd_read_sql_fillna (query : value) (con : db_connection)
    (params : gmap string value) (kw : gmap string value)
| to_sql (df : DataFrame) (table : value) (con : db_connection)
    (kw : gmap string value).

(** A call [f(k1=v1, ..., **kw)]: Python builds one keyword dictionary at
    the call site and raises [TypeError] when a key of [kw] repeats an
    explicit keyword (the message names the callee and the key, which are
    left out here); otherwise the callee receives the explicit keywords
    together with every entry of [kw]. *)
Definition multiple_values : pyexc :=
  Exc TypeError "got multiple values for keyword argument".

Definition repeats (explicit : list string) (kw : gmap string value) : bool :=
  existsb (contains kw) explicit.

Definition splat (explicit : list (string * value)) (kw : gmap string value)
  : result (gmap string value) :=
  if repeats explicit.*1 kw
  then Err multiple_values
  else Ok (list_to_map explicit ∪ kw).

(** ** mllaunchpad.resource *)

Module resource.

(** Modelled from the spec: the base classes [DataSource] and [DataSink]
    of [mllaunchpad.resource], which this file imports and which are not
    part of the sources at hand.  A resource declares its identifier and
    its configuration block; the options map is the [options]
    sub-dictionary of that block (one object, reached both as
    [self.options] and through [self.config]), filled in with an empty
    dictionary at construction when the block has none. *)
Record t := Resource {
  id : string;
  config : config_block
}.

(** Modelled from the spec: the base constructor, which stores the
    identifier and the configuration block and fills in a missing
    [options] entry with an empty dictionary. *)
Definition __init__ (identifier : string) (cfg : config_block) : t :=
  {| id := identifier;
     config := {| entries := entries cfg;
                  options_entry := Some (default ∅ (options_entry cfg)) |} |}.

(** Modelled from the spec: [self.options], the options sub-dictionary
    of the configuration block the instance holds. *)
Definition options (self : t) : gmap string value :=
  default ∅ (options_entry (config self)).

(** Modelled from the spec: [self.options[key] = v], an assignment on
    that one dictionary. *)
Definition setitem_options (key : string) (v : value) (self : t) : t :=
  {| id := id self;
     config := {| entries := entries (config self);
                  options_entry := Some (<[key := v]> (options self)) |} |}.

(** Modelled from the spec: reading the process environment by variable
    name, for [get_user_pw].  A value that is not a string ([None] when
    no name was supplied) names no variable. *)
Definition env_lookup (environ : gmap string string) (name : value)
  : option string :=
  match name with
  | VStr n => environ !! n
  | _ => None
  end.

(** Modelled from the spec: [get_user_pw] of [mllaunchpad.resource], the
    credential resolver.  Given the names of the username and of the
    password environment variable it returns the resolved pair; it fails
    when the username variable is unset, and returns an absent password
    when no password variable name was supplied or when it is unset. *)
Definition get_user_pw (environ : gmap string string)
    (user_var password_var : value) : result (string * option string) :=
  match env_lookup environ user_var with
  | None => Err (Exc MissingCredentialError "user name variable not set")
  | Some user => Ok (user, env_lookup environ password_var)
  end.

End resource.

(** ** Module-level definitions of datasources.py *)

Definition SUPPORTED_FILE_TYPES : list string :=
  ["csv"; "euro_csv"; "text_file"; "binary_file"].

(** The database driver, imported inside [_get_oracle_connection]. *)
Record cx_Oracle_module := {
  makedsn : value -> value -> value -> result string;
  connect : string -> option string -> string -> gmap string value ->
            result db_connection
}.

Section OracleConnection.
(** [None]: the driver is not installed and the import fails. *)
Variable cx_Oracle : option cx_Oracle_module.
Variable environ : gmap string string.

Definition _get_oracle_connection (dbms_config : config_block)
  : result db_connection :=
  match cx_Oracle with
  | None => Err (Exc ImportError "No module named 'cx_Oracle'")
  | Some drv =>
      user_var ← getitem dbms_config "user_var";
      password_var ← getitem dbms_config "password_var";
      '(user, pw) ← resource.get_user_pw environ user_var password_var;
      host ← getitem dbms_config "host";
      port ← getitem dbms_config "port";
      service_name ← getitem dbms_config "service_name";
      dsn_tns ← makedsn drv host port service_name;
      let kw_options := default ∅ (options_entry dbms_config) in
      connect drv user pw dsn_tns kw_options
  end.
End OracleConnection.

(** The guard that opens every method taking [buffer]. *)
Definition reject_buffer {S} (buffer : bool) (msg : string) : M S unit :=
  if buffer then raise (Exc NotImplementedError msg) else mret tt.

(** ** class FileDataSource *)

Module FileDataSource.

Record t := {
  base : resource.t;
  type : value;
  path : value
}.

Definition serves : list string := SUPPORTED_FILE_TYPES.

Definition options (self : t) : gmap string value :=
  resource.options (base self).

Section Init.
(** Python's [repr]. *)
Variable repr : value -> string.

Definition __init__ (identifier : string) (datasource_config : config_block)
  : result t :=
  let self_base := resource.__init__ identifier datasource_config in
  ds_type ← getitem datasource_config "type";
  if negb (py_in ds_type SUPPORTED_FILE_TYPES)
  then Err (Exc TypeError
         (repr ds_type +:+ " is not a datasource file type (in datasource "
          +:+ repr (VStr identifier) +:+ ")."))
  else
    ds_path ← getitem datasource_config "path";
    Ok {| base := self_base; type := ds_type; path := ds_path |}.
End Init.

Definition get_dataframe (params : option (gmap string value))
    (buffer : bool) : M t libcall :=
  reject_buffer buffer "Buffered reading not supported yet";;
  kw_options ← gets options;
  self_type ← gets type;
  self_path ← gets path;
  if bool_decide (self_type = VStr "csv") then
    mret (pd_read_csv self_path kw_options)
  else if bool_decide (self_type = VStr "euro_csv") then
    kw ← lift (splat [("sep", VStr ";"); ("decimal", VStr ",")] kw_options);
    mret (pd_read_csv self_path kw)
  else
    raise (Exc TypeError
      ("Can only read csv files as dataframes. Use method "
       +:+ quoted "get_raw" +:+ " for raw data")).

Definition get_raw (params : option (gmap string value))
    (buffer : bool) : M t libcall :=
  reject_buffer buffer "Buffered reading not supported yet";;
  kw_options ← gets options;
  self_type ← gets type;
  self_path ← gets path;
  if bool_decide (self_type = VStr "text_file") then
    mret (open_read self_path "r" kw_options)
  else if bool_decide (self_type = VStr "binary_file") then
    mret (open_read self_path "rb" kw_options)
  else
    raise (Exc TypeError
      ("Can only read binary data or text strings as raw file. "
       +:+ "Use method " +:+ quoted "get_dataframe" +:+ " for dataframes")).

End FileDataSource.

(** ** class FileDataSink *)

Module FileDataSink.

Record t := {
  base : resource.t;
  type : value;
  path : value
}.

Definition serves : list string := SUPPORTED_FILE_TYPES.

Definition options (self : t) : gmap string value :=
  resource.options (base self).

(** [self.options[key] = v]: the dictionary is the one the base holds. *)
Definition setitem_options (key : string) (v : value) (self : t) : t :=
  {| base := resource.setitem_options key v (base self);
     type := type self;
     path := path self |}.

Section Init.
(** Python's [repr]. *)
Variable repr : value -> string.

Definition __init__ (identifier : string) (datasink_config : config_block)
  : result t :=
  let self_base := resource.__init__ identifier datasink_config in
  ds_type ← getitem datasink_config "type";
  if negb (py_in ds_type SUPPORTED_FILE_TYPES)
  then Err (Exc TypeError
         (repr ds_type +:+ " is not a datasink file type (in datasink "
          +:+ repr (VStr identifier) +:+ ")."))
  else
    ds_path ← getitem datasink_config "path";
    Ok {| base := self_base; type := ds_type; path := ds_path |}.
End Init.

Definition put_dataframe (dataframe : DataFrame)
    (params : option (gmap string value)) (buffer : bool) : M t libcall :=
  reject_buffer buffer "Buffered writing not supported yet";;
  kw_options ← gets options;
  (if negb (contains kw_options "index")
   then modify (setitem_options "index" (VBool false))
   else mret tt);;
  (* [kw_options] is [self.options] itself, read after the assignment *)
  kw_options ← gets options;
  self_type ← gets type;
  self_path ← gets path;
  if bool_decide (self_type = VStr "csv") then
    mret (to_csv dataframe self_path kw_options)
  else if bool_decide (self_type = VStr "euro_csv") then
    kw ← lift (splat [("sep", VStr ";"); ("decimal", VStr ",")] kw_options);
    mret (to_csv dataframe self_path kw)
  else
    raise (Exc TypeError
      ("Can only write dataframes to csv file. Use method "
       +:+ quoted "put_raw" +:+ " for raw data")).

Definition put_raw (raw_data : Raw) (params : option (gmap string value))
    (buffer : bool) : M t libcall :=
  reject_buffer buffer "Buffered writing not supported yet";;
  kw_options ← gets options;
  self_type ← gets type;
  self_path ← gets path;
  if bool_decide (self_type = VStr "text_file") then
    mret (open_write self_path "w" kw_options raw_data)
  else if bool_decide (self_type = VStr "binary_file") then
    mret (open_write self_path "wb" kw_options raw_data)
  else
    raise (Exc TypeError
      ("Can only write binary data or text strings as raw file. "
       +:+ "Use method " +:+ quoted "put_dataframe" +:+ " for dataframes")).

End FileDataSink.

(** ** class OracleDataSource *)

Module OracleDataSource.

(** [connection] is [None] while the attribute has not been assigned. *)
Record t := {
  base : resource.t;
  dbms_config : config_block;
  connection : option db_connection
}.

Definition serves : list string := ["dbms.oracle"].

Definition options (self : t) : gmap string value :=
  resource.options (base self).

(** [self.config[key]] *)
Definition config_item (key : string) : M t value := fun self =>
  (getitem (resource.config (base self)) key, self).

(** [self.connection] *)
Definition get_connection : M t db_connection := fun self =>
  match connection self with
  | Some c => (Ok c, self)
  | None => (Err (Exc AttributeError "connection"), self)
  end.

Section Init.
Variable cx_Oracle : option cx_Oracle_module.
Variable environ : gmap string string.

(** The instance as the constructor leaves it, and the exception it
    raised, if any. *)
Definition __init__ (identifier : string)
    (datasource_config dbms_cfg : config_block) : t * option pyexc :=
  let self_base := resource.__init__ identifier datasource_config in
  match _get_oracle_connection cx_Oracle environ dbms_cfg with
  | Ok c =>
      ({| base := self_base; dbms_config := dbms_cfg;
          connection := Some c |}, None)
  | Err e =>
      ({| base := self_base; dbms_config := dbms_cfg;
          connection := None |}, Some e)
  end.
End Init.

Definition get_dataframe (params : option (gmap string value))
    (buffer : bool) : M t libcall :=
  reject_buffer buffer "Buffered reading not supported yet";;
  query ← config_item "query";
  let params := default ∅ params in
  kw_options ← gets options;
  con ← get_connection;
  if repeats ["con"; "params"] kw_options
  then raise multiple_values
  else mret (pd_read_sql_fillna query con params kw_options).

Definition get_raw (params : option (gmap string value))
    (buffer : bool) : M t libcall :=
  raise (Exc NotImplementedError
    ("OracleDataSource currently does not not support raw format/blobs. "
     +:+ "Use method " +:+ quoted "get_dataframe" +:+ " for dataframes")).

Section Del.
(** What [close()] of the driver raises, if anything. *)
Variable close : db_connection -> option pyexc.

(** The [close()] calls made, in order, and the exception that leaves
    the finalizer, if any. *)
Definition __del__ (self : t) : list db_connection * option pyexc :=
  match connection self with
  | Some c => ([c], close c)
  | None => ([], None)
  end.
End Del.

End OracleDataSource.

(** ** class OracleDataSink *)

Module OracleDataSink.

(** [connection] is [None] while the attribute has not been assigned. *)
Record t := {
  base : resource.t;
  dbms_config : config_block;
  connection : option db_connection
}.

Definition serves : list string := ["dbms.oracle"].

Definition options (self : t) : gmap string value :=
  resource.options (base self).

(** [self.options[key] = v]: the dictionary is the one the base holds. *)
Definition setitem_options (key : string) (v : value) (self : t) : t :=
  {| base := resource.setitem_options key v (base self);
     dbms_config := dbms_config self;
     connection := connection self |}.

(** [self.config[key]] *)
Definition config_item (key : string) : M t value := fun self =>
  (getitem (resource.config (base self)) key, self).

(** [self.connection] *)
Definition get_connection : M t db_connection := fun self =>
  match connection self with
  | Some c => (Ok c, self)
  | None => (Err (Exc AttributeError "connection"), self)
  end.

Section Init.
Variable cx_Oracle : option cx_Oracle_module.
Variable environ : gmap string string.

(** The instance as the constructor leaves it, and the exception it
    raised, if any. *)
Definition __init__ (identifier : string)
    (datasink_config dbms_cfg : config_block) : t * option pyexc :=
  let self_base := resource.__init__ identifier datasink_config in
  match _get_oracle_connection cx_Oracle environ dbms_cfg with
  | Ok c =>
      ({| base := self_base; dbms_config := dbms_cfg;
          connection := Some c |}, None)
  | Err e =>
      ({| base := self_base; dbms_config := dbms_cfg;
          connection := None |}, Some e)
  end.
End Init.

Definition put_dataframe (dataframe : DataFrame)
    (params : option (gmap string value)) (buffer : bool) : M t libcall :=
  reject_buffer buffer "Buffered storing not supported yet";;
  table ← config_item "table";
  kw_options ← gets options;
  (if negb (contains kw_options "index")
   then modify (setitem_options "index" (VBool false))
   else mret tt);;
  (* [kw_options] is [self.options] itself, read after the assignment *)
  kw_options ← gets options;
  con ← get_connection;
  if repeats ["con"] kw_options
  then raise multiple_values
  else mret (to_sql dataframe table con kw_options).

Definition put_raw (raw_data : Raw) (params : option (gmap string value))
    (buffer : bool) : M t libcall :=
  raise (Exc NotImplementedError
    ("OracleDataSink currently does not not support raw format/blobs. "
     +:+ "Use method " +:+ quoted "put_dataframe" +:+ " for raw data")).

Section Del.
(** What [close()] of the driver raises, if anything. *)
Variable close : db_connection -> option pyexc.

(** The [close()] calls made, in order, and the exception that leaves
    the finalizer, if any. *)
Definition __del__ (self : t) : list db_connection * option pyexc :=
  match connection self with
  | Some c => ([c], close c)
  | None => ([], None)
  end.
End Del.

End OracleDataSink.

(** * Properties *)

(** ** Reading results *)

(** The result is a failure of class [c]. *)
Definition raises {A} (c : exc_class) (r : result A) : Prop :=
  match r with
  | Err e => exc_type e = c
  | Ok _ => False
  end.

(** The result is a failure of class [c] whose message names the method
    [method], between double quotes. *)
Definition raises_naming {A} (c : exc_class) (method : string)
    (r : result A) : Prop :=
  match r with
  | Err e => exc_type e = c ∧ names (quoted method) (exc_msg e)
  | Ok _ => False
  end.

(** [has_char c s]: the character [c] occurs in [s]. *)
Fixpoint has_char (c : ascii) (s : string) : bool :=
  match s with
  | EmptyString => false
  | String x s' => if Ascii.eqb x c then true else has_char c s'
  end.

(** The result is a failure of class [c] whose message names no method:
    no name between double quotes occurs in it. *)
Definition raises_naming_none {A} (c : exc_class) (r : result A) : Prop :=
  match r with
  | Err e => exc_type e = c ∧ ∀ method, ¬ names (quoted method) (exc_msg e)
  | Ok _ => False
  end.

(** The two access shapes of the file types. *)
Definition tabular_type (ty : value) : Prop :=
  ty = VStr "csv" ∨ ty = VStr "euro_csv".

Definition raw_type (ty : value) : Prop :=
  ty = VStr "text_file" ∨ ty = VStr "binary_file".

(** One of the four supported file tags. *)
Definition supported (ty : value) : Prop :=
  tabular_type ty ∨ raw_type ty.

(** The options bring their own separator or decimal mark. *)
Definition sets_sep_or_decimal (kw : gmap string value) : Prop :=
  is_Some (kw !! "sep") ∨ is_Some (kw !! "decimal").

(** ** Sample configurations and instances

    The configuration fragments of the docstrings, used to evaluate the
    definitions on concrete inputs. *)

Module Sample.

(** [repr] on the values of the samples: strings free of quotes and
    escapes, [None], booleans and integers. *)
Definition repr (v : value) : string :=
  match v with
  | VNone => "None"
  | VBool true => "True"
  | VBool false => "False"
  | VInt z => pretty z
  | VStr s => "'" +:+ s +:+ "'"
  end.

Definition file_config (ty : string) (file : string)
    (opts : option (gmap string value)) : config_block :=
  {| entries := {[ "type" := VStr ty; "path" := VStr file ]};
     options_entry := opts |}.

Definition csv_config := file_config "csv" "/some/file.csv" None.
Definition euro_csv_config := file_config "euro_csv" "/some/file.csv" None.
Definition text_config := file_config "text_file" "/some/file.txt" None.
Definition binary_config :=
  file_config "binary_file" "/some/file.pickle" None.
Definition xml_config := file_config "xml" "/some/file.xml" None.

(** A [euro_csv] block whose options bring their own separator. *)
Definition euro_csv_sep_config :=
  file_config "euro_csv" "/some/file.csv" (Some {[ "sep" := VStr "|" ]}).
Definition csv_sep_config :=
  file_config "csv" "/some/file.csv" (Some {[ "sep" := VStr "|" ]}).

Definition file_source (cfg : config_block) (ty file : string)
  : FileDataSource.t :=
  {| FileDataSource.base := resource.__init__ "my_datasource" cfg;
     FileDataSource.type := VStr ty;
     FileDataSource.path := VStr file |}.

Definition file_sink (cfg : config_block) (ty file : string)
  : FileDataSink.t :=
  {| FileDataSink.base := resource.__init__ "my_datasink" cfg;
     FileDataSink.type := VStr ty;
     FileDataSink.path := VStr file |}.

Definition csv_source := file_source csv_config "csv" "/some/file.csv".
Definition euro_csv_source :=
  file_source euro_csv_config "euro_csv" "/some/file.csv".
Definition text_source := file_source text_config "text_file" "/some/file.txt".
Definition csv_sink := file_sink csv_config "csv" "/some/file.csv".
Definition euro_csv_sink :=
  file_sink euro_csv_config "euro_csv" "/some/file.csv".
Definition text_sink := file_sink text_config "text_file" "/some/file.txt".
Definition euro_csv_sep_source :=
  file_source euro_csv_sep_config "euro_csv" "/some/file.csv".
Definition euro_csv_sep_sink :=
  file_sink euro_csv_sep_config "euro_csv" "/some/file.csv".
Definition csv_sep_source := file_source csv_sep_config "csv" "/some/file.csv".
Definition csv_sep_sink := file_sink csv_sep_config "csv" "/some/file.csv".

(** A [csv] sink whose options ask for the row index. *)
Definition csv_index_config :=
  file_config "csv" "/some/file.csv" (Some {[ "index" := VBool true ]}).
Definition csv_index_sink :=
  file_sink csv_index_config "csv" "/some/file.csv".

Definition frame : DataFrame :=
  {| columns := ["id"; "amount"];
     rows := [[VInt 1; VStr "12.5"]] |}.

(** The connection block of the docstrings, and the same block without
    its [password_var] line. *)
Definition dbms_entries : gmap string value :=
  {[ "type" := VStr "oracle";
     "host" := VStr "host.example.com";
     "port" := VInt 1251;
     "user_var" := VStr "MY_USER_ENV_VAR";
     "service_name" := VStr "servicename.example.com" ]}.

Definition dbms_config : config_block :=
  {| entries := <["password_var" := VStr "MY_PW_ENV_VAR"]> dbms_entries;
     options_entry := Some ∅ |}.

Definition dbms_config_no_password_var : config_block :=
  {| entries := dbms_entries; options_entry := Some ∅ |}.

Definition environ : gmap string string :=
  {[ "MY_USER_ENV_VAR" := "scott"; "MY_PW_ENV_VAR" := "tiger" ]}.

Definition environ_no_password : gmap string string :=
  {[ "MY_USER_ENV_VAR" := "scott" ]}.

(** A driver whose server answers, and one whose server is unreachable. *)
Definition driver_up : cx_Oracle_module :=
  {| makedsn := fun host port service_name => Ok "dsn";
     connect := fun user pw dsn kw => Ok (Connection 1) |}.

Definition driver_down : cx_Oracle_module :=
  {| makedsn := fun host port service_name => Ok "dsn";
     connect := fun user pw dsn kw =>
       Err (Exc DatabaseError "ORA-12541: TNS:no listener") |}.

Definition close_quietly (c : db_connection) : option pyexc := None.

Definition query_config : config_block :=
  {| entries := {[ "type" := VStr "dbms.my_connection";
                   "query" := VStr "SELECT * FROM somewhere.my_table" ]};
     options_entry := None |}.

Definition table_config : config_block :=
  {| entries := {[ "type" := VStr "dbms.my_connection";
                   "table" := VStr "somewhere.my_table" ]};
     options_entry := None |}.

Definition oracle_source : OracleDataSource.t :=
  (OracleDataSource.__init__ (Some driver_up) environ
     "my_datasource" query_config dbms_config).1.

Definition oracle_sink : OracleDataSink.t :=
  (OracleDataSink.__init__ (Some driver_up) environ
     "my_datasink" table_config dbms_config).1.

End Sample.

(** ** Callers

    A caller holds one instance and calls its methods one after the
    other, going on whatever a call returns or raises. *)

(** The result is a value: the method got as far as its library call. *)
Definition succeeds {A} (r : result A) : Prop :=
  match r with
  | Ok _ => True
  | Err _ => False
  end.

Inductive source_call :=
| call_get_dataframe (params : option (gmap string value)) (buffer : bool)
| call_get_raw (params : option (gmap string value)) (buffer : bool).

Inductive sink_call :=
| call_put_dataframe (dataframe : DataFrame)
    (params : option (gmap string value)) (buffer : bool)
| call_put_raw (raw_data : Raw) (params : option (gmap string value))
    (buffer : bool).

Definition FileDataSource_call (c : source_call) : M FileDataSource.t libcall :=
  match c with
  | call_get_dataframe params buffer =>
      FileDataSource.get_dataframe params buffer
  | call_get_raw params buffer => FileDataSource.get_raw params buffer
  end.

Definition FileDataSink_call (c : sink_call) : M FileDataSink.t libcall :=
  match c with
  | call_put_dataframe df params buffer =>
      FileDataSink.put_dataframe df params buffer
  | call_put_raw raw_data params buffer =>
      FileDataSink.put_raw raw_data params buffer
  end.

Definition OracleDataSource_call (c : source_call)
  : M OracleDataSource.t libcall :=
  match c with
  | call_get_dataframe params buffer =>
      OracleDataSource.get_dataframe params buffer
  | call_get_raw params buffer => OracleDataSource.get_raw params buffer
  end.

Definition OracleDataSink_call (c : sink_call) : M OracleDataSink.t libcall :=
  match c with
  | call_put_dataframe df params buffer =>
      OracleDataSink.put_dataframe df params buffer
  | call_put_raw raw_data params buffer =>
      OracleDataSink.put_raw raw_data params buffer
  end.

(** The instance after the calls [cs], made in order. *)
Fixpoint after_calls {S C} (call : C -> M S libcall) (cs : list C) (self : S)
  : S :=
  match cs with
  | [] => self
  | c :: cs => after_calls call cs (call c self).2
  end.

(** What a method guarded by [buffer] may do: on a buffered call it
    raises [NotImplementedError]; on an unbuffered call it returns, or
    raises [TypeError]. *)
Definition guarded_outcome {A} (buffer : bool) (r : result A) : Prop :=
  match r with
  | Ok _ => buffer = false
  | Err e =>
      if buffer then exc_type e = NotImplementedError
      else exc_type e = TypeError
  end.

(** The file a library call works on, and the connection it uses. *)
Definition file_of (call : libcall) : option value :=
  match call with
  | pd_read_csv f _ | to_csv _ f _ | open_read f _ _ | open_write f _ _ _ =>
      Some f
  | pd_read_sql_fillna _ _ _ _ | to_sql _ _ _ _ => None
  end.

Definition connection_of (call : libcall) : option db_connection :=
  match call with
  | pd_read_sql_fillna _ con _ _ | to_sql _ _ con _ => Some con
  | pd_read_csv _ _ | to_csv _ _ _ | open_read _ _ _ | open_write _ _ _ _ =>
      None
  end.

(** * Proofs *)

Lemma append_assoc (a b c : string) : (a +:+ b) +:+ c = a +:+ (b +:+ c).
Proof.
  induction a as [|x a IH]; [done|].
  change (String x ((a +:+ b) +:+ c) = String x (a +:+ (b +:+ c))).
  by rewrite IH.
Qed.

Lemma names_intro (pre needle post : string) :
  names needle (pre +:+ needle +:+ post).
Proof. by exists pre, post. Qed.

Lemma py_in_supported (ty : value) :
  py_in ty SUPPORTED_FILE_TYPES = true ↔ supported ty.
Proof.
  unfold py_in, SUPPORTED_FILE_TYPES, supported, tabular_type, raw_type.
  simpl. rewrite !orb_true_iff, !bool_decide_eq_true. intuition discriminate.
Qed.

Lemma py_in_unsupported (ty : value) :
  ¬ supported ty → py_in ty SUPPORTED_FILE_TYPES = false.
Proof.
  intros H. destruct (py_in ty SUPPORTED_FILE_TYPES) eqn:E; [|done].
  by apply py_in_supported in E.
Qed.

(** The message is the source's literal around the quoted method name. *)
Ltac show_names :=
  first [ apply names_intro
        | unfold names; eexists (_ +:+ _), _; by rewrite append_assoc ].

(** Unfold a method body down to the monad's plumbing. *)
Ltac run :=
  cbv beta iota zeta delta
    [FileDataSource.get_dataframe FileDataSource.get_raw
     FileDataSink.put_dataframe FileDataSink.put_raw
     OracleDataSource.get_dataframe OracleDataSource.get_raw
     OracleDataSink.put_dataframe OracleDataSink.put_raw
     OracleDataSource.get_connection OracleDataSink.get_connection
     OracleDataSource.config_item OracleDataSink.config_item
     reject_buffer mbind M_bind mret M_ret raise gets modify lift].

(** Shapes exclude each other, which settles the [if]/[elif] chains. *)
Ltac settle_type H :=
  unfold tabular_type, raw_type in H;
  destruct H as [H|H]; rewrite H; simpl.

(** ** Buffered calls *)

(** C2. Every method of every backend (file source, file sink, database
    source, database sink) called with [buffer] true fails with a
    [NotImplementedError], whatever the instance, its configured type
    and the other arguments. *)
Theorem buffer_true_raises_NotImplementedError
    (params : option (gmap string value)) (df : DataFrame) (raw_data : Raw)
    (fsrc : FileDataSource.t) (fsnk : FileDataSink.t)
    (osrc : OracleDataSource.t) (osnk : OracleDataSink.t) :
  raises NotImplementedError (FileDataSource.get_dataframe params true fsrc).1
  ∧ raises NotImplementedError (FileDataSource.get_raw params true fsrc).1
  ∧ raises NotImplementedError
      (FileDataSink.put_dataframe df params true fsnk).1
  ∧ raises NotImplementedError
      (FileDataSink.put_raw raw_data params true fsnk).1
  ∧ raises NotImplementedError
      (OracleDataSource.get_dataframe params true osrc).1
  ∧ raises NotImplementedError (OracleDataSource.get_raw params true osrc).1
  ∧ raises NotImplementedError
      (OracleDataSink.put_dataframe df params true osnk).1
  ∧ raises NotImplementedError
      (OracleDataSink.put_raw raw_data params true osnk).1.
Proof. repeat split. Qed.

(** ** Cross-shape rejection *)

Lemma FileDataSource_get_dataframe_raw_type params (self : FileDataSource.t) :
  raw_type (FileDataSource.type self) →
  raises_naming TypeError "get_raw"
    (FileDataSource.get_dataframe params false self).1.
Proof.
  destruct self as [b ty p]; simpl. intros H.
  unfold FileDataSource.get_dataframe. settle_type H; cbn;
    (split; [done | apply names_intro]).
Qed.

Lemma FileDataSource_get_raw_tabular_type params (self : FileDataSource.t) :
  tabular_type (FileDataSource.type self) →
  raises_naming TypeError "get_dataframe"
    (FileDataSource.get_raw params false self).1.
Proof.
  destruct self as [b ty p]; simpl. intros H.
  unfold FileDataSource.get_raw. settle_type H; cbn;
    (split; [done | show_names]).
Qed.

Lemma FileDataSink_put_dataframe_raw_type df params (self : FileDataSink.t) :
  raw_type (FileDataSink.type self) →
  raises_naming TypeError "put_raw"
    (FileDataSink.put_dataframe df params false self).1.
Proof.
  destruct self as [b ty p]; simpl. intros H. run.
  destruct (contains _ "index"); simpl;
    (settle_type H; (split; [done | apply names_intro])).
Qed.

Lemma FileDataSink_put_raw_tabular_type raw_data params
    (self : FileDataSink.t) :
  tabular_type (FileDataSink.type self) →
  raises_naming TypeError "put_dataframe"
    (FileDataSink.put_raw raw_data params false self).1.
Proof.
  destruct self as [b ty p]; simpl. intros H.
  unfold FileDataSink.put_raw. settle_type H; cbn;
    (split; [done | show_names]).
Qed.

Lemma OracleDataSource_get_raw_not_implemented params buffer
    (self : OracleDataSource.t) :
  raises_naming NotImplementedError "get_dataframe"
    (OracleDataSource.get_raw params buffer self).1.
Proof. split; [done | show_names]. Qed.

Lemma OracleDataSink_put_raw_not_implemented raw_data params buffer
    (self : OracleDataSink.t) :
  raises_naming NotImplementedError "put_dataframe"
    (OracleDataSink.put_raw raw_data params buffer self).1.
Proof. split; [done | show_names]. Qed.

(** A message that names a method holds a double quote. *)
Lemma has_char_append c (pre rest : string) :
  has_char c (pre +:+ String c rest) = true.
Proof.
  induction pre as [|x pre IH].
  - change (has_char c (String c rest) = true). simpl.
    by rewrite Ascii.eqb_refl.
  - change (has_char c (String x (pre +:+ String c rest)) = true). simpl.
    rewrite IH. by destruct (Ascii.eqb x c).
Qed.

Lemma names_quoted_has_quote (method msg : string) :
  names (quoted method) msg → has_char (ascii_of_nat 34) msg = true.
Proof.
  intros (pre & post & ->).
  change (has_char (ascii_of_nat 34)
            (pre +:+ String (ascii_of_nat 34) ((method +:+ dq) +:+ post))
          = true).
  apply has_char_append.
Qed.

Lemma no_quote_names_no_method (msg : string) :
  has_char (ascii_of_nat 34) msg = false →
  ∀ method, ¬ names (quoted method) msg.
Proof.
  intros Hno method Hnames%names_quoted_has_quote. congruence.
Qed.

(** A buffered call of a file method stops at the guard, on any
    instance, with a message that names no method. *)
Lemma FileDataSource_buffered_names_no_method params
    (self : FileDataSource.t) :
  raises_naming_none NotImplementedError
    (FileDataSource.get_dataframe params true self).1
  ∧ raises_naming_none NotImplementedError
      (FileDataSource.get_raw params true self).1.
Proof.
  split; (split; [done | by apply no_quote_names_no_method]).
Qed.

Lemma FileDataSink_buffered_names_no_method df raw_data params
    (self : FileDataSink.t) :
  raises_naming_none NotImplementedError
    (FileDataSink.put_dataframe df params true self).1
  ∧ raises_naming_none NotImplementedError
      (FileDataSink.put_raw raw_data params true self).1.
Proof.
  split; (split; [done | by apply no_quote_names_no_method]).
Qed.

(** C1, as stated, at a buffered call: [get_dataframe] on a
    [text_file]-typed source with [buffer] true stops at the buffer guard
    with a [NotImplementedError] whose message names no method; it does
    not raise the [TypeError] naming [get_raw]. *)
Lemma cross_shape_buffered_call_is_not_TypeError :
  FileDataSource.__init__ Sample.repr "my_datasource" Sample.text_config
    = Ok Sample.text_source
  ∧ raw_type (FileDataSource.type Sample.text_source)
  ∧ (FileDataSource.get_dataframe None true Sample.text_source).1
    = Err (Exc NotImplementedError "Buffered reading not supported yet")
  ∧ (∀ method,
       ¬ names (quoted method) "Buffered reading not supported yet")
  ∧ ¬ raises_naming TypeError "get_raw"
        (FileDataSource.get_dataframe None true Sample.text_source).1.
Proof.
  split; [by vm_compute|]. split; [by left|]. split; [done|].
  split; [by apply no_quote_names_no_method|].
  intros [H _]. discriminate H.
Qed.

(** C1, amended. When [buffer] is false, calling the access shape a file
    backend does not support fails at call time with a [TypeError] naming
    the method to use instead: [get_dataframe] on a [text_file]- or
    [binary_file]-typed source names [get_raw], [get_raw] on a [csv]- or
    [euro_csv]-typed source names [get_dataframe], and likewise
    [put_dataframe] and [put_raw] on a file sink.  [get_raw] on a database
    source and [put_raw] on a database sink fail for every value of
    [buffer] with a [NotImplementedError] naming the dataframe method.
    When [buffer] is true, the four methods of the file backends fail at
    the buffer guard, on every instance, with a [NotImplementedError]
    whose message names no method. *)
Theorem cross_shape_rejection
    (params : option (gmap string value)) (df : DataFrame) (raw_data : Raw) :
  (∀ self : FileDataSource.t,
     raw_type (FileDataSource.type self) →
     raises_naming TypeError "get_raw"
       (FileDataSource.get_dataframe params false self).1)
  ∧ (∀ self : FileDataSource.t,
       tabular_type (FileDataSource.type self) →
       raises_naming TypeError "get_dataframe"
         (FileDataSource.get_raw params false self).1)
  ∧ (∀ self : FileDataSink.t,
       raw_type (FileDataSink.type self) →
       raises_naming TypeError "put_raw"
         (FileDataSink.put_dataframe df params false self).1)
  ∧ (∀ self : FileDataSink.t,
       tabular_type (FileDataSink.type self) →
       raises_naming TypeError "put_dataframe"
         (FileDataSink.put_raw raw_data params false self).1)
  ∧ (∀ (self : OracleDataSource.t) (buffer : bool),
       raises_naming NotImplementedError "get_dataframe"
         (OracleDataSource.get_raw params buffer self).1)
  ∧ (∀ (self : OracleDataSink.t) (buffer : bool),
       raises_naming NotImplementedError "put_dataframe"
         (OracleDataSink.put_raw raw_data params buffer self).1)
  ∧ (∀ self : FileDataSource.t,
       raises_naming_none NotImplementedError
         (FileDataSource.get_dataframe params true self).1
       ∧ raises_naming_none NotImplementedError
           (FileDataSource.get_raw params true self).1)
  ∧ (∀ self : FileDataSink.t,
       raises_naming_none NotImplementedError
         (FileDataSink.put_dataframe df params true self).1
       ∧ raises_naming_none NotImplementedError
           (FileDataSink.put_raw raw_data params true self).1).
Proof.
  split; [intros; by apply FileDataSource_get_dataframe_raw_type|].
  split; [intros; by apply FileDataSource_get_raw_tabular_type|].
  split; [intros; by apply FileDataSink_put_dataframe_raw_type|].
  split; [intros; by apply FileDataSink_put_raw_tabular_type|].
  split; [intros; apply OracleDataSource_get_raw_not_implemented|].
  split; [intros; apply OracleDataSink_put_raw_not_implemented|].
  split; intros.
  - apply FileDataSource_buffered_names_no_method.
  - apply FileDataSink_buffered_names_no_method.
Qed.

Lemma cross_shape_rejection_witness :
  raises_naming TypeError "get_raw"
    (FileDataSource.get_dataframe None false Sample.text_source).1
  ∧ raises_naming TypeError "get_dataframe"
      (FileDataSource.get_raw None false Sample.euro_csv_source).1
  ∧ raises_naming TypeError "put_raw"
      (FileDataSink.put_dataframe Sample.frame None false Sample.text_sink).1
  ∧ raises_naming TypeError "put_dataframe"
      (FileDataSink.put_raw (RawStr "text") None false Sample.csv_sink).1
  ∧ raises_naming_none NotImplementedError
      (FileDataSource.get_dataframe None true Sample.text_source).1
  ∧ raises_naming_none NotImplementedError
      (FileDataSink.put_raw (RawStr "text") None true Sample.csv_sink).1.
Proof.
  pose proof (cross_shape_rejection None Sample.frame (RawStr "text"))
    as (H1 & H2 & H3 & H4 & _ & _ & H7 & H8).
  split; [apply H1; left; reflexivity|].
  split; [apply H2; right; reflexivity|].
  split; [apply H3; left; reflexivity|].
  split; [apply H4; left; reflexivity|].
  split; [apply H7 | apply H8].
Defined.

(** ** Construction of file backends *)

Lemma FileDataSource_init_unsupported repr identifier cfg ds_type :
  entries cfg !! "type" = Some ds_type →
  ¬ supported ds_type →
  FileDataSource.__init__ repr identifier cfg
  = Err (Exc TypeError
      (repr ds_type +:+ " is not a datasource file type (in datasource "
       +:+ repr (VStr identifier) +:+ ").")).
Proof.
  intros Hty Hbad. unfold FileDataSource.__init__, getitem.
  rewrite Hty. unfold mbind, result_bind.
  by rewrite (py_in_unsupported _ Hbad).
Qed.

Lemma FileDataSink_init_unsupported repr identifier cfg ds_type :
  entries cfg !! "type" = Some ds_type →
  ¬ supported ds_type →
  FileDataSink.__init__ repr identifier cfg
  = Err (Exc TypeError
      (repr ds_type +:+ " is not a datasink file type (in datasink "
       +:+ repr (VStr identifier) +:+ ").")).
Proof.
  intros Hty Hbad. unfold FileDataSink.__init__, getitem.
  rewrite Hty. unfold mbind, result_bind.
  by rewrite (py_in_unsupported _ Hbad).
Qed.

Lemma FileDataSource_init_supported repr identifier cfg ds_type ds_path :
  entries cfg !! "type" = Some ds_type →
  entries cfg !! "path" = Some ds_path →
  supported ds_type →
  FileDataSource.__init__ repr identifier cfg
  = Ok {| FileDataSource.base := resource.__init__ identifier cfg;
          FileDataSource.type := ds_type;
          FileDataSource.path := ds_path |}.
Proof.
  intros Hty Hpath Hok. unfold FileDataSource.__init__, getitem.
  rewrite Hty. unfold mbind, result_bind.
  apply py_in_supported in Hok. rewrite Hok. simpl negb. cbv iota.
  by rewrite Hpath.
Qed.

Lemma FileDataSink_init_supported repr identifier cfg ds_type ds_path :
  entries cfg !! "type" = Some ds_type →
  entries cfg !! "path" = Some ds_path →
  supported ds_type →
  FileDataSink.__init__ repr identifier cfg
  = Ok {| FileDataSink.base := resource.__init__ identifier cfg;
          FileDataSink.type := ds_type;
          FileDataSink.path := ds_path |}.
Proof.
  intros Hty Hpath Hok. unfold FileDataSink.__init__, getitem.
  rewrite Hty. unfold mbind, result_bind.
  apply py_in_supported in Hok. rewrite Hok. simpl negb. cbv iota.
  by rewrite Hpath.
Qed.

(** C3. Constructing a file source or a file sink from a configuration
    whose [type] is not one of [csv], [euro_csv], [text_file],
    [binary_file] fails with a [TypeError] whose message contains the
    [repr] of the type value and the [repr] of the resource identifier;
    with one of the four tags and a configured [path], construction
    succeeds and the instance holds that type and that path. *)
Theorem file_constructor_validates_type
    (repr : value → string) (identifier : string) (cfg : config_block)
    (ds_type : value) :
  entries cfg !! "type" = Some ds_type →
  (¬ supported ds_type →
     (∃ msg, FileDataSource.__init__ repr identifier cfg
             = Err (Exc TypeError msg)
             ∧ names (repr ds_type) msg
             ∧ names (repr (VStr identifier)) msg)
     ∧ (∃ msg, FileDataSink.__init__ repr identifier cfg
               = Err (Exc TypeError msg)
               ∧ names (repr ds_type) msg
               ∧ names (repr (VStr identifier)) msg))
  ∧ (supported ds_type →
     ∀ ds_path, entries cfg !! "path" = Some ds_path →
       (∃ self, FileDataSource.__init__ repr identifier cfg = Ok self
                ∧ FileDataSource.type self = ds_type
                ∧ FileDataSource.path self = ds_path
                ∧ resource.id (FileDataSource.base self) = identifier)
       ∧ (∃ self, FileDataSink.__init__ repr identifier cfg = Ok self
                  ∧ FileDataSink.type self = ds_type
                  ∧ FileDataSink.path self = ds_path
                  ∧ resource.id (FileDataSink.base self) = identifier)).
Proof.
  intros Hty. split.
  - intros Hbad. split; eexists; (split; [|split]).
    + by apply FileDataSource_init_unsupported.
    + apply (names_intro "").
    + show_names.
    + by apply FileDataSink_init_unsupported.
    + apply (names_intro "").
    + show_names.
  - intros Hok ds_path Hpath. split; eexists.
    + split; [by apply FileDataSource_init_supported | done].
    + split; [by apply FileDataSink_init_supported | done].
Qed.

Lemma file_constructor_validates_type_witness :
  (∃ msg, FileDataSource.__init__ Sample.repr "my_datasource"
            Sample.xml_config = Err (Exc TypeError msg)
          ∧ names "'xml'" msg ∧ names "'my_datasource'" msg)
  ∧ (∃ self, FileDataSink.__init__ Sample.repr "my_datasink"
               Sample.csv_config = Ok self
             ∧ FileDataSink.type self = VStr "csv"
             ∧ FileDataSink.path self = VStr "/some/file.csv"
             ∧ resource.id (FileDataSink.base self) = "my_datasink").
Proof.
  split.
  - assert (Hbad : ¬ supported (VStr "xml")).
    { unfold supported, tabular_type, raw_type. intros [[H|H]|[H|H]];
        discriminate H. }
    exact (proj1 (proj1 (file_constructor_validates_type Sample.repr
      "my_datasource" Sample.xml_config (VStr "xml") eq_refl) Hbad)).
  - assert (Hok : supported (VStr "csv")) by (left; left; reflexivity).
    exact (proj2 (proj2 (file_constructor_validates_type Sample.repr
      "my_datasink" Sample.csv_config (VStr "csv") eq_refl) Hok
      (VStr "/some/file.csv") eq_refl)).
Defined.

(** ** The options map under the access methods *)

Lemma contains_true (kw : gmap string value) key :
  contains kw key = true ↔ is_Some (kw !! key).
Proof. unfold contains. apply bool_decide_eq_true. Qed.

Lemma contains_false (kw : gmap string value) key :
  contains kw key = false ↔ kw !! key = None.
Proof.
  unfold contains. rewrite bool_decide_eq_false. symmetry.
  apply eq_None_not_Some.
Qed.

Lemma contains_insert (kw : gmap string value) key v :
  contains (<[key := v]> kw) key = true.
Proof. apply contains_true. rewrite lookup_insert_eq. by eexists. Qed.

Lemma FileDataSink_options_setitem key v (self : FileDataSink.t) :
  FileDataSink.options (FileDataSink.setitem_options key v self)
  = <[key := v]> (FileDataSink.options self).
Proof. reflexivity. Qed.

Lemma OracleDataSink_options_setitem key v (self : OracleDataSink.t) :
  OracleDataSink.options (OracleDataSink.setitem_options key v self)
  = <[key := v]> (OracleDataSink.options self).
Proof. reflexivity. Qed.

(** The instance a call of [put_dataframe] leaves behind. *)
Lemma FileDataSink_put_dataframe_state df params buffer
    (self : FileDataSink.t) :
  (FileDataSink.put_dataframe df params buffer self).2
  = if buffer then self
    else if contains (FileDataSink.options self) "index" then self
    else FileDataSink.setitem_options "index" (VBool false) self.
Proof.
  destruct buffer; [done|]. run.
  destruct (contains _ "index"); simpl;
    repeat (match goal with |- context [if ?b then _ else _] =>
              destruct b end; simpl; try done);
    by destruct (splat _ _).
Qed.

Lemma OracleDataSink_put_dataframe_state df params buffer
    (self : OracleDataSink.t) :
  (OracleDataSink.put_dataframe df params buffer self).2
  = if buffer then self
    else match entries (resource.config (OracleDataSink.base self))
               !! "table" with
         | None => self
         | Some _ =>
             if contains (OracleDataSink.options self) "index" then self
             else OracleDataSink.setitem_options "index" (VBool false) self
         end.
Proof.
  destruct buffer; [done|]. run. unfold getitem.
  destruct (entries _ !! "table"); [|done].
  destruct (contains _ "index"); simpl;
    (destruct (OracleDataSink.connection self); simpl; [|done]);
    by match goal with |- context [if ?b then _ else _] => destruct b end.
Qed.

(** C4. [put_dataframe] of a file sink and of a database sink changes
    the options map at most by adding [index := False], and only when the
    map has no [index] key: a map that has the key is left as it is, a
    map without it (on an unbuffered call, and for the database sink with
    a configured table) receives the default, and a second call leaves
    the instance as the first one left it. *)
Theorem put_dataframe_index_default
    (df : DataFrame) (params : option (gmap string value)) (buffer : bool)
    (fsnk : FileDataSink.t) (osnk : OracleDataSink.t) :
  let fsnk' := (FileDataSink.put_dataframe df params buffer fsnk).2 in
  let osnk' := (OracleDataSink.put_dataframe df params buffer osnk).2 in
  ((∀ v, FileDataSink.options fsnk !! "index" = Some v →
         FileDataSink.options fsnk' = FileDataSink.options fsnk)
   ∧ (FileDataSink.options fsnk' ≠ FileDataSink.options fsnk →
      FileDataSink.options fsnk !! "index" = None
      ∧ FileDataSink.options fsnk'
        = <["index" := VBool false]> (FileDataSink.options fsnk))
   ∧ (buffer = false → FileDataSink.options fsnk !! "index" = None →
      FileDataSink.options fsnk'
      = <["index" := VBool false]> (FileDataSink.options fsnk))
   ∧ (FileDataSink.put_dataframe df params buffer fsnk').2 = fsnk')
  ∧
  ((∀ v, OracleDataSink.options osnk !! "index" = Some v →
         OracleDataSink.options osnk' = OracleDataSink.options osnk)
   ∧ (OracleDataSink.options osnk' ≠ OracleDataSink.options osnk →
      OracleDataSink.options osnk !! "index" = None
      ∧ OracleDataSink.options osnk'
        = <["index" := VBool false]> (OracleDataSink.options osnk))
   ∧ (buffer = false →
      is_Some (entries (resource.config (OracleDataSink.base osnk))
               !! "table") →
      OracleDataSink.options osnk !! "index" = None →
      OracleDataSink.options osnk'
      = <["index" := VBool false]> (OracleDataSink.options osnk))
   ∧ (OracleDataSink.put_dataframe df params buffer osnk').2 = osnk').
Proof.
  intros fsnk' osnk'. split.
  - subst fsnk'. rewrite !FileDataSink_put_dataframe_state.
    destruct buffer; [by repeat split|].
    destruct (contains (FileDataSink.options fsnk) "index") eqn:E.
    + rewrite E. repeat split; try done.
      intros _ Hnone. apply contains_false in Hnone. congruence.
    + rewrite FileDataSink_options_setitem, contains_insert.
      apply contains_false in E. repeat split; try done.
      intros v Hv. congruence.
  - subst osnk'. rewrite !OracleDataSink_put_dataframe_state.
    destruct buffer; [by repeat split|].
    destruct (entries (resource.config (OracleDataSink.base osnk))
              !! "table") as [tbl|] eqn:T.
    2: { rewrite T. by repeat split. }
    destruct (contains (OracleDataSink.options osnk) "index") eqn:E.
    + rewrite T, E. repeat split; try done.
      intros _ _ Hnone. apply contains_false in Hnone. congruence.
    + simpl. rewrite T. rewrite OracleDataSink_options_setitem,
        contains_insert.
      apply contains_false in E. repeat split; try done.
      intros v Hv. congruence.
Qed.

Lemma put_dataframe_index_default_witness :
  FileDataSink.options
    (FileDataSink.put_dataframe Sample.frame None false
       Sample.csv_index_sink).2
  = FileDataSink.options Sample.csv_index_sink
  ∧ FileDataSink.options
      (FileDataSink.put_dataframe Sample.frame None false Sample.csv_sink).2
    = <["index" := VBool false]> (FileDataSink.options Sample.csv_sink)
  ∧ OracleDataSink.options
      (OracleDataSink.put_dataframe Sample.frame None false
         Sample.oracle_sink).2
    = <["index" := VBool false]> (OracleDataSink.options Sample.oracle_sink).
Proof.
  split; [|split].
  - exact (proj1 (proj1 (put_dataframe_index_default Sample.frame None false
      Sample.csv_index_sink Sample.oracle_sink)) (VBool true) eq_refl).
  - exact (proj1 (proj2 (proj2 (proj1 (put_dataframe_index_default
      Sample.frame None false Sample.csv_sink Sample.oracle_sink))))
      eq_refl eq_refl).
  - refine (proj1 (proj2 (proj2 (proj2 (put_dataframe_index_default
      Sample.frame None false Sample.csv_sink Sample.oracle_sink))))
      eq_refl _ eq_refl).
    by eexists.
Defined.

(** ** The configuration after construction *)

(** Take the branches of a method body one by one. *)
Ltac branches :=
  repeat (simpl;
          match goal with
          | |- context [if ?b then _ else _] => destruct b
          | |- context [match ?r with Ok _ => _ | Err _ => _ end] =>
              destruct r
          | |- context [match ?o with Some _ => _ | None => _ end] =>
              destruct o
          end);
  simpl; try done.

Lemma FileDataSource_methods_frame params buffer (self : FileDataSource.t) :
  (FileDataSource.get_dataframe params buffer self).2 = self
  ∧ (FileDataSource.get_raw params buffer self).2 = self.
Proof. split; run; branches. Qed.

Lemma FileDataSink_put_raw_frame raw_data params buffer
    (self : FileDataSink.t) :
  (FileDataSink.put_raw raw_data params buffer self).2 = self.
Proof. run; branches. Qed.

Lemma OracleDataSource_methods_frame params buffer
    (self : OracleDataSource.t) :
  (OracleDataSource.get_dataframe params buffer self).2 = self
  ∧ (OracleDataSource.get_raw params buffer self).2 = self.
Proof. split; run; unfold getitem; branches. Qed.

(** C5, as stated, at a sink just constructed from a block without
    options: after construction has completed, [put_dataframe] adds an
    [index] entry to the options map of the instance, so the options map
    seen through the instance is no longer the one construction left. *)
Lemma put_dataframe_changes_options_after_construction :
  FileDataSink.__init__ Sample.repr "my_datasink" Sample.csv_config
    = Ok Sample.csv_sink
  ∧ FileDataSink.options Sample.csv_sink !! "index" = None
  ∧ FileDataSink.options
      (FileDataSink.put_dataframe Sample.frame None false Sample.csv_sink).2
    !! "index" = Some (VBool false)
  ∧ FileDataSink.options
      (FileDataSink.put_dataframe Sample.frame None false Sample.csv_sink).2
    ≠ FileDataSink.options Sample.csv_sink.
Proof.
  split; [by vm_compute|]. split; [done|]. split; [done|].
  intros H.
  assert (E : FileDataSink.options
      (FileDataSink.put_dataframe Sample.frame None false
         Sample.csv_sink).2 !! "index"
    = FileDataSink.options Sample.csv_sink !! "index") by by rewrite H.
  discriminate E.
Qed.

(** C5, amended. After construction, [get_dataframe], [get_raw] and
    [put_raw] leave the instance, and with it the configuration and the
    options map, as they found it, on every backend and for every
    argument.  [put_dataframe] changes the instance in exactly one case:
    an unbuffered call (on a database sink, one whose configuration has a
    [table] entry) on an options map without an [index] key.  It then
    assigns [index := False] in the options map, which was not there
    before, and leaves the identifier, the entries of the configuration
    and the other keys of the options alone; a buffered call, a call on a
    map that has the key, and a call on a database sink without a table
    leave the instance as it was. *)
Theorem configuration_read_only_except_index_default
    (params : option (gmap string value)) (df : DataFrame) (raw_data : Raw)
    (buffer : bool)
    (fsrc : FileDataSource.t) (fsnk : FileDataSink.t)
    (osrc : OracleDataSource.t) (osnk : OracleDataSink.t) :
  (FileDataSource.get_dataframe params buffer fsrc).2 = fsrc
  ∧ (FileDataSource.get_raw params buffer fsrc).2 = fsrc
  ∧ (FileDataSink.put_raw raw_data params buffer fsnk).2 = fsnk
  ∧ (OracleDataSource.get_dataframe params buffer osrc).2 = osrc
  ∧ (OracleDataSource.get_raw params buffer osrc).2 = osrc
  ∧ (OracleDataSink.put_raw raw_data params buffer osnk).2 = osnk
  ∧ (buffer = true ∨ is_Some (FileDataSink.options fsnk !! "index") →
     (FileDataSink.put_dataframe df params buffer fsnk).2 = fsnk)
  ∧ (buffer = false → FileDataSink.options fsnk !! "index" = None →
     (FileDataSink.put_dataframe df params buffer fsnk).2
     = FileDataSink.setitem_options "index" (VBool false) fsnk
     ∧ FileDataSink.options
         (FileDataSink.put_dataframe df params buffer fsnk).2
       ≠ FileDataSink.options fsnk)
  ∧ (buffer = true
     ∨ entries (resource.config (OracleDataSink.base osnk)) !! "table" = None
     ∨ is_Some (OracleDataSink.options osnk !! "index") →
     (OracleDataSink.put_dataframe df params buffer osnk).2 = osnk)
  ∧ (buffer = false →
     is_Some (entries (resource.config (OracleDataSink.base osnk))
              !! "table") →
     OracleDataSink.options osnk !! "index" = None →
     (OracleDataSink.put_dataframe df params buffer osnk).2
     = OracleDataSink.setitem_options "index" (VBool false) osnk
     ∧ OracleDataSink.options
         (OracleDataSink.put_dataframe df params buffer osnk).2
       ≠ OracleDataSink.options osnk)
  ∧ (∀ key v,
       resource.id (FileDataSink.base
         (FileDataSink.setitem_options key v fsnk))
       = resource.id (FileDataSink.base fsnk)
       ∧ entries (resource.config (FileDataSink.base
           (FileDataSink.setitem_options key v fsnk)))
         = entries (resource.config (FileDataSink.base fsnk))
       ∧ FileDataSink.type (FileDataSink.setitem_options key v fsnk)
         = FileDataSink.type fsnk
       ∧ FileDataSink.path (FileDataSink.setitem_options key v fsnk)
         = FileDataSink.path fsnk
       ∧ FileDataSink.options (FileDataSink.setitem_options key v fsnk)
         = <[key := v]> (FileDataSink.options fsnk))
  ∧ (∀ key v,
       resource.id (OracleDataSink.base
         (OracleDataSink.setitem_options key v osnk))
       = resource.id (OracleDataSink.base osnk)
       ∧ entries (resource.config (OracleDataSink.base
           (OracleDataSink.setitem_options key v osnk)))
         = entries (resource.config (OracleDataSink.base osnk))
       ∧ OracleDataSink.dbms_config
           (OracleDataSink.setitem_options key v osnk)
         = OracleDataSink.dbms_config osnk
       ∧ OracleDataSink.connection
           (OracleDataSink.setitem_options key v osnk)
         = OracleDataSink.connection osnk
       ∧ OracleDataSink.options (OracleDataSink.setitem_options key v osnk)
         = <[key := v]> (OracleDataSink.options osnk)).
Proof.
  split; [apply FileDataSource_methods_frame|].
  split; [apply FileDataSource_methods_frame|].
  split; [apply FileDataSink_put_raw_frame|].
  split; [apply OracleDataSource_methods_frame|].
  split; [apply OracleDataSource_methods_frame|].
  split; [done|].
  rewrite FileDataSink_put_dataframe_state,
    OracleDataSink_put_dataframe_state.
  split; [|split; [|split; [|split; [|by split]]]].
  - intros [->|Hidx%contains_true]; [done|].
    rewrite Hidx. by destruct buffer.
  - intros -> Hnone. rewrite (proj2 (contains_false _ _) Hnone).
    split; [done|]. rewrite FileDataSink_options_setitem. intros Heq.
    assert (E : <["index" := VBool false]> (FileDataSink.options fsnk)
                !! "index" = FileDataSink.options fsnk !! "index")
      by by rewrite Heq.
    rewrite lookup_insert_eq, Hnone in E. discriminate E.
  - intros [->|[->|Hidx%contains_true]]; [done| by destruct buffer |].
    rewrite Hidx. destruct buffer; [done|].
    by destruct (entries _ !! "table").
  - intros -> [table ->] Hnone. rewrite (proj2 (contains_false _ _) Hnone).
    split; [done|]. rewrite OracleDataSink_options_setitem. intros Heq.
    assert (E : <["index" := VBool false]> (OracleDataSink.options osnk)
                !! "index" = OracleDataSink.options osnk !! "index")
      by by rewrite Heq.
    rewrite lookup_insert_eq, Hnone in E. discriminate E.
Qed.

Lemma configuration_read_only_except_index_default_witness :
  (FileDataSink.put_dataframe Sample.frame None false
     Sample.csv_index_sink).2 = Sample.csv_index_sink
  ∧ (FileDataSink.put_dataframe Sample.frame None false Sample.csv_sink).2
    = FileDataSink.setitem_options "index" (VBool false) Sample.csv_sink
  ∧ (OracleDataSink.put_dataframe Sample.frame None true
       Sample.oracle_sink).2 = Sample.oracle_sink
  ∧ (OracleDataSink.put_dataframe Sample.frame None false
       Sample.oracle_sink).2
    = OracleDataSink.setitem_options "index" (VBool false)
        Sample.oracle_sink.
Proof.
  pose proof (configuration_read_only_except_index_default None
    Sample.frame (RawStr "text") false Sample.csv_source
    Sample.csv_index_sink Sample.oracle_source Sample.oracle_sink)
    as (_ & _ & _ & _ & _ & _ & H7 & _ & _ & H10 & _).
  pose proof (configuration_read_only_except_index_default None
    Sample.frame (RawStr "text") false Sample.csv_source
    Sample.csv_sink Sample.oracle_source Sample.oracle_sink)
    as (_ & _ & _ & _ & _ & _ & _ & H8 & _).
  pose proof (configuration_read_only_except_index_default None
    Sample.frame (RawStr "text") true Sample.csv_source
    Sample.csv_sink Sample.oracle_source Sample.oracle_sink)
    as (_ & _ & _ & _ & _ & _ & _ & _ & H9 & _).
  split; [|split; [|split]].
  - apply H7. right. by eexists.
  - exact (proj1 (H8 eq_refl eq_refl)).
  - apply H9. by left.
  - refine (proj1 (H10 eq_refl _ eq_refl)). by eexists.
Defined.

(** ** Credentials and the connection factory *)

Lemma get_user_pw_user_unset environ user_var password_var :
  resource.env_lookup environ user_var = None →
  raises MissingCredentialError
    (resource.get_user_pw environ user_var password_var).
Proof. intros H. unfold resource.get_user_pw. by rewrite H. Qed.

Lemma get_user_pw_password_absent environ user_var password_var user :
  resource.env_lookup environ user_var = Some user →
  resource.env_lookup environ password_var = None →
  resource.get_user_pw environ user_var password_var = Ok (user, None).
Proof. intros Hu Hp. unfold resource.get_user_pw. by rewrite Hu, Hp. Qed.

Lemma get_user_pw_no_password_var environ user_var user :
  resource.env_lookup environ user_var = Some user →
  resource.get_user_pw environ user_var VNone = Ok (user, None).
Proof. intros Hu. by apply get_user_pw_password_absent. Qed.

(** With both variable names configured, an unset username variable makes
    the factory fail, and an unset password variable makes it connect
    without a password. *)
Lemma _get_oracle_connection_user_unset drv environ cfg user_var
    password_var :
  entries cfg !! "user_var" = Some user_var →
  entries cfg !! "password_var" = Some password_var →
  resource.env_lookup environ user_var = None →
  raises MissingCredentialError
    (_get_oracle_connection (Some drv) environ cfg).
Proof.
  intros Hu Hp He. unfold _get_oracle_connection, getitem.
  rewrite Hu, Hp. unfold mbind, result_bind, resource.get_user_pw.
  by rewrite He.
Qed.

Lemma _get_oracle_connection_password_unset drv environ cfg user_var
    password_var user host port service_name dsn :
  entries cfg !! "user_var" = Some user_var →
  entries cfg !! "password_var" = Some password_var →
  entries cfg !! "host" = Some host →
  entries cfg !! "port" = Some port →
  entries cfg !! "service_name" = Some service_name →
  resource.env_lookup environ user_var = Some user →
  resource.env_lookup environ password_var = None →
  makedsn drv host port service_name = Ok dsn →
  _get_oracle_connection (Some drv) environ cfg
  = connect drv user None dsn (default ∅ (options_entry cfg)).
Proof.
  intros Hu Hp Hh Hpo Hs Heu Hep Hdsn. unfold _get_oracle_connection, getitem.
  rewrite Hu, Hp, Hh, Hpo, Hs. unfold mbind, result_bind.
  rewrite (get_user_pw_password_absent _ _ _ _ Heu Hep). by rewrite Hdsn.
Qed.

(** C6, on the code. A connection block without a [password_var] entry
    never reaches credential resolution: the factory subscripts the block
    with [password_var] and fails with [KeyError], although the
    configuration examples of both Oracle classes mark the entry as
    optional. *)
Theorem oracle_connection_requires_password_var
    (drv : cx_Oracle_module) (environ : gmap string string)
    (cfg : config_block) (user_var : value) :
  entries cfg !! "user_var" = Some user_var →
  entries cfg !! "password_var" = None →
  _get_oracle_connection (Some drv) environ cfg
  = Err (Exc KeyError "password_var").
Proof.
  intros Hu Hp. unfold _get_oracle_connection, getitem. by rewrite Hu, Hp.
Qed.

Lemma oracle_connection_requires_password_var_witness :
  _get_oracle_connection (Some Sample.driver_up) Sample.environ
    Sample.dbms_config_no_password_var
  = Err (Exc KeyError "password_var").
Proof.
  exact (oracle_connection_requires_password_var Sample.driver_up
    Sample.environ Sample.dbms_config_no_password_var
    (VStr "MY_USER_ENV_VAR") eq_refl eq_refl).
Defined.

(** The same blocks with the entry present connect, with or without the
    password variable set. *)
Example _get_oracle_connection_sample :
  _get_oracle_connection (Some Sample.driver_up) Sample.environ
    Sample.dbms_config = Ok (Connection 1)
  ∧ _get_oracle_connection (Some Sample.driver_up)
      Sample.environ_no_password Sample.dbms_config = Ok (Connection 1)
  ∧ raises MissingCredentialError
      (_get_oracle_connection (Some Sample.driver_up) ∅ Sample.dbms_config).
Proof. by vm_compute. Qed.

(** ** Teardown *)

(** C7. Destroying a database source or sink whose construction
    completed calls [close()] once, on the connection the factory
    returned; destroying an instance whose construction failed in the
    factory, and so never assigned [connection], makes no call and raises
    nothing. *)
Theorem teardown_closes_owned_connection_once
    (cx_Oracle : option cx_Oracle_module) (environ : gmap string string)
    (close : db_connection → option pyexc)
    (identifier : string) (cfg dbms_cfg : config_block) :
  let src := OracleDataSource.__init__ cx_Oracle environ identifier cfg
               dbms_cfg in
  let snk := OracleDataSink.__init__ cx_Oracle environ identifier cfg
               dbms_cfg in
  (src.2 = None →
     ∃ c, _get_oracle_connection cx_Oracle environ dbms_cfg = Ok c
          ∧ OracleDataSource.connection src.1 = Some c
          ∧ OracleDataSource.__del__ close src.1 = ([c], close c))
  ∧ (src.2 ≠ None →
       OracleDataSource.connection src.1 = None
       ∧ OracleDataSource.__del__ close src.1 = ([], None))
  ∧ (snk.2 = None →
       ∃ c, _get_oracle_connection cx_Oracle environ dbms_cfg = Ok c
            ∧ OracleDataSink.connection snk.1 = Some c
            ∧ OracleDataSink.__del__ close snk.1 = ([c], close c))
  ∧ (snk.2 ≠ None →
       OracleDataSink.connection snk.1 = None
       ∧ OracleDataSink.__del__ close snk.1 = ([], None)).
Proof.
  intros src snk. subst src snk.
  unfold OracleDataSource.__init__, OracleDataSink.__init__.
  destruct (_get_oracle_connection cx_Oracle environ dbms_cfg) as [c|e];
    simpl.
  - split; [intros _; by exists c|]. split; [done|].
    split; [intros _; by exists c|done].
  - by repeat split.
Qed.

Lemma teardown_closes_owned_connection_once_witness :
  OracleDataSource.__del__ Sample.close_quietly Sample.oracle_source
    = ([Connection 1], None)
  ∧ OracleDataSink.__del__ Sample.close_quietly
      (OracleDataSink.__init__ (Some Sample.driver_down) Sample.environ
         "my_datasink" Sample.table_config Sample.dbms_config).1
    = ([], None).
Proof.
  split.
  - destruct (proj1 (teardown_closes_owned_connection_once
      (Some Sample.driver_up) Sample.environ Sample.close_quietly
      "my_datasource" Sample.query_config Sample.dbms_config) eq_refl)
      as (c & Hc & _ & Hdel).
    injection Hc as <-. exact Hdel.
  - refine (proj2 (proj2 (proj2 (proj2
      (teardown_closes_owned_connection_once
         (Some Sample.driver_down) Sample.environ Sample.close_quietly
         "my_datasink" Sample.table_config Sample.dbms_config))) _)).
    discriminate.
Defined.

(** ** Separator and decimal options *)

Lemma splat_repeated explicit (kw : gmap string value) key :
  key ∈ explicit.*1 → is_Some (kw !! key) →
  splat explicit kw = Err multiple_values.
Proof.
  intros Hin Hkey. unfold splat, repeats.
  assert (existsb (contains kw) explicit.*1 = true) as ->; [|done].
  apply existsb_exists. exists key. split.
  - by apply list_elem_of_In.
  - by apply contains_true.
Qed.

Lemma splat_fresh explicit (kw : gmap string value) :
  (∀ key, key ∈ explicit.*1 → kw !! key = None) →
  splat explicit kw = Ok (list_to_map explicit ∪ kw).
Proof.
  intros Hfresh. unfold splat, repeats.
  assert (existsb (contains kw) explicit.*1 = false) as ->; [|done].
  apply not_true_is_false. intros (key & Hin & Hc)%existsb_exists.
  apply contains_true in Hc. apply list_elem_of_In in Hin.
  rewrite (Hfresh key Hin) in Hc. by destruct Hc.
Qed.

Lemma euro_csv_keywords_repeated (kw : gmap string value) :
  sets_sep_or_decimal kw →
  splat [("sep", VStr ";"); ("decimal", VStr ",")] kw = Err multiple_values.
Proof.
  intros [H|H].
  - apply (splat_repeated _ _ "sep"); [set_solver | done].
  - apply (splat_repeated _ _ "decimal"); [set_solver | done].
Qed.

Lemma FileDataSource_get_dataframe_euro_csv params
    (self : FileDataSource.t) :
  FileDataSource.type self = VStr "euro_csv" →
  (FileDataSource.get_dataframe params false self).1
  = match splat [("sep", VStr ";"); ("decimal", VStr ",")]
            (FileDataSource.options self) with
    | Ok kw => Ok (pd_read_csv (FileDataSource.path self) kw)
    | Err e => Err e
    end.
Proof.
  destruct self as [b ty p]; simpl. intros ->. run. simpl.
  by destruct (splat _ _).
Qed.

Lemma FileDataSink_put_dataframe_euro_csv df params (self : FileDataSink.t) :
  FileDataSink.type self = VStr "euro_csv" →
  (FileDataSink.put_dataframe df params false self).1
  = match splat [("sep", VStr ";"); ("decimal", VStr ",")]
            (FileDataSink.options
               (FileDataSink.put_dataframe df params false self).2) with
    | Ok kw => Ok (to_csv df (FileDataSink.path self) kw)
    | Err e => Err e
    end.
Proof.
  intros Hty. rewrite FileDataSink_put_dataframe_state.
  destruct self as [b ty p]; simpl in *. subst ty. run.
  destruct (contains _ "index"); simpl; by destruct (splat _ _).
Qed.

Lemma FileDataSink_put_dataframe_csv df params (self : FileDataSink.t) :
  FileDataSink.type self = VStr "csv" →
  (FileDataSink.put_dataframe df params false self).1
  = Ok (to_csv df (FileDataSink.path self)
          (FileDataSink.options
             (FileDataSink.put_dataframe df params false self).2)).
Proof.
  intros Hty. rewrite FileDataSink_put_dataframe_state.
  destruct self as [b ty p]; simpl in *. subst ty. run.
  by destruct (contains _ "index").
Qed.

Lemma put_dataframe_options_other_keys df params (self : FileDataSink.t)
    key :
  key ≠ "index" →
  FileDataSink.options (FileDataSink.put_dataframe df params false self).2
    !! key
  = FileDataSink.options self !! key.
Proof.
  intros Hne. rewrite FileDataSink_put_dataframe_state.
  destruct (contains _ "index"); [done|].
  rewrite FileDataSink_options_setitem. by rewrite lookup_insert_ne.
Qed.

(** C10, as stated, at a buffered call: on a [euro_csv] source whose
    options set [sep], [get_dataframe] with [buffer] true stops at the
    buffer guard with a [NotImplementedError], before the keywords are put
    together; the failure is not the repeated-keyword [TypeError]. *)
Lemma euro_csv_sep_buffered_call_is_not_TypeError :
  FileDataSource.__init__ Sample.repr "my_datasource"
    Sample.euro_csv_sep_config = Ok Sample.euro_csv_sep_source
  ∧ sets_sep_or_decimal (FileDataSource.options Sample.euro_csv_sep_source)
  ∧ (FileDataSource.get_dataframe None true Sample.euro_csv_sep_source).1
    = Err (Exc NotImplementedError "Buffered reading not supported yet")
  ∧ (FileDataSource.get_dataframe None true Sample.euro_csv_sep_source).1
    ≠ Err multiple_values.
Proof.
  split; [by vm_compute|]. split; [left; by eexists|]. split; [done|].
  discriminate.
Qed.

(** C10, amended. On an unbuffered call, a [euro_csv]-typed file source
    or sink whose options map contains a [sep] or a [decimal] key fails in
    [get_dataframe], respectively [put_dataframe], with the [TypeError] of
    a keyword given twice, and no parser or writer is reached.  A
    [csv]-typed resource hands the options map itself to the parser, and
    to the writer with every key but [index] as the caller set it.  With
    neither key in the options, [euro_csv] gives the parser the options
    together with [sep] and [decimal] set to semicolon and comma.  On a
    buffered call both methods fail before that, at the buffer guard,
    with a [NotImplementedError], on every instance and without touching
    it. *)
Theorem euro_csv_rejects_sep_and_decimal_options
    (params : option (gmap string value)) (df : DataFrame)
    (fsrc : FileDataSource.t) (fsnk : FileDataSink.t) :
  (FileDataSource.type fsrc = VStr "euro_csv" →
   sets_sep_or_decimal (FileDataSource.options fsrc) →
   (FileDataSource.get_dataframe params false fsrc).1 = Err multiple_values)
  ∧ (FileDataSink.type fsnk = VStr "euro_csv" →
     sets_sep_or_decimal (FileDataSink.options fsnk) →
     (FileDataSink.put_dataframe df params false fsnk).1
     = Err multiple_values)
  ∧ (FileDataSource.type fsrc = VStr "csv" →
     (FileDataSource.get_dataframe params false fsrc).1
     = Ok (pd_read_csv (FileDataSource.path fsrc)
             (FileDataSource.options fsrc)))
  ∧ (FileDataSink.type fsnk = VStr "csv" →
     ∃ kw, (FileDataSink.put_dataframe df params false fsnk).1
           = Ok (to_csv df (FileDataSink.path fsnk) kw)
           ∧ ∀ key, key ≠ "index" →
               kw !! key = FileDataSink.options fsnk !! key)
  ∧ (FileDataSource.type fsrc = VStr "euro_csv" →
     FileDataSource.options fsrc !! "sep" = None →
     FileDataSource.options fsrc !! "decimal" = None →
     (FileDataSource.get_dataframe params false fsrc).1
     = Ok (pd_read_csv (FileDataSource.path fsrc)
             (<["sep" := VStr ";"]> (<["decimal" := VStr ","]> ∅)
              ∪ FileDataSource.options fsrc)))
  ∧ FileDataSource.get_dataframe params true fsrc
    = (Err (Exc NotImplementedError "Buffered reading not supported yet"),
       fsrc)
  ∧ FileDataSink.put_dataframe df params true fsnk
    = (Err (Exc NotImplementedError "Buffered writing not supported yet"),
       fsnk).
Proof.
  split; [|split; [|split; [|split; [|split; [|split; reflexivity]]]]].
  - intros Hty Hkw. rewrite (FileDataSource_get_dataframe_euro_csv _ _ Hty).
    by rewrite (euro_csv_keywords_repeated _ Hkw).
  - intros Hty Hkw. rewrite (FileDataSink_put_dataframe_euro_csv _ _ _ Hty).
    rewrite euro_csv_keywords_repeated; [done|].
    destruct Hkw as [H|H]; [left|right];
      by rewrite put_dataframe_options_other_keys.
  - destruct fsrc as [b ty p]; simpl. intros ->. by run.
  - intros Hty. eexists. split.
    + by apply FileDataSink_put_dataframe_csv.
    + intros key Hne. by apply put_dataframe_options_other_keys.
  - intros Hty Hsep Hdec.
    rewrite (FileDataSource_get_dataframe_euro_csv _ _ Hty).
    rewrite splat_fresh; [done|].
    intros key Hin. simpl in Hin.
    apply elem_of_cons in Hin as [->|Hin]; [done|].
    apply elem_of_cons in Hin as [->|Hin]; [done|].
    by apply elem_of_nil in Hin.
Qed.

Lemma euro_csv_rejects_sep_and_decimal_options_witness :
  (FileDataSource.get_dataframe None false Sample.euro_csv_sep_source).1
    = Err multiple_values
  ∧ (FileDataSink.put_dataframe Sample.frame None false
       Sample.euro_csv_sep_sink).1 = Err multiple_values
  ∧ (FileDataSource.get_dataframe None false Sample.csv_sep_source).1
    = Ok (pd_read_csv (VStr "/some/file.csv") {[ "sep" := VStr "|" ]})
  ∧ (∃ kw, (FileDataSink.put_dataframe Sample.frame None false
              Sample.csv_sep_sink).1
           = Ok (to_csv Sample.frame (VStr "/some/file.csv") kw)
           ∧ ∀ key, key ≠ "index" →
               kw !! key
               = FileDataSink.options Sample.csv_sep_sink !! key)
  ∧ (FileDataSource.get_dataframe None false Sample.euro_csv_source).1
    = Ok (pd_read_csv (VStr "/some/file.csv")
            (<["sep" := VStr ";"]> (<["decimal" := VStr ","]> ∅) ∪ ∅))
  ∧ FileDataSource.get_dataframe None true Sample.euro_csv_sep_source
    = (Err (Exc NotImplementedError "Buffered reading not supported yet"),
       Sample.euro_csv_sep_source)
  ∧ FileDataSink.put_dataframe Sample.frame None true
      Sample.euro_csv_sep_sink
    = (Err (Exc NotImplementedError "Buffered writing not supported yet"),
       Sample.euro_csv_sep_sink).
Proof.
  assert (Hsep : ∀ kw : gmap string value,
             kw !! "sep" = Some (VStr "|") → sets_sep_or_decimal kw)
    by (intros kw H; left; by eexists).
  split; [|split; [|split; [|split; [|split; [|split]]]]].
  - exact (proj1 (euro_csv_rejects_sep_and_decimal_options None
      Sample.frame Sample.euro_csv_sep_source Sample.euro_csv_sep_sink)
      eq_refl
      (Hsep (FileDataSource.options Sample.euro_csv_sep_source) eq_refl)).
  - exact (proj1 (proj2 (euro_csv_rejects_sep_and_decimal_options None
      Sample.frame Sample.euro_csv_sep_source Sample.euro_csv_sep_sink))
      eq_refl
      (Hsep (FileDataSink.options Sample.euro_csv_sep_sink) eq_refl)).
  - exact (proj1 (proj2 (proj2 (euro_csv_rejects_sep_and_decimal_options
      None Sample.frame Sample.csv_sep_source Sample.csv_sep_sink)))
      eq_refl).
  - exact (proj1 (proj2 (proj2 (proj2
      (euro_csv_rejects_sep_and_decimal_options
         None Sample.frame Sample.csv_sep_source Sample.csv_sep_sink))))
      eq_refl).
  - exact (proj1 (proj2 (proj2 (proj2 (proj2
      (euro_csv_rejects_sep_and_decimal_options
         None Sample.frame Sample.euro_csv_source Sample.csv_sep_sink)))))
      eq_refl eq_refl eq_refl).
  - exact (proj1 (proj2 (proj2 (proj2 (proj2 (proj2
      (euro_csv_rejects_sep_and_decimal_options
         None Sample.frame Sample.euro_csv_sep_source
         Sample.euro_csv_sep_sink))))))).
  - exact (proj2 (proj2 (proj2 (proj2 (proj2 (proj2
      (euro_csv_rejects_sep_and_decimal_options
         None Sample.frame Sample.euro_csv_sep_source
         Sample.euro_csv_sep_sink))))))).
Defined.

(** * Further properties *)

(** ** File constructors on incomplete blocks *)

(** X1. A file source or sink cannot be built from a block that lacks an
    entry the constructor subscripts: without a [type] entry the
    constructor fails with [KeyError] on [type], and with a supported
    type but no [path] entry it fails with [KeyError] on [path]. *)
Theorem file_constructor_missing_entry
    (repr : value → string) (identifier : string) (cfg : config_block) :
  (entries cfg !! "type" = None →
     FileDataSource.__init__ repr identifier cfg = Err (Exc KeyError "type")
     ∧ FileDataSink.__init__ repr identifier cfg = Err (Exc KeyError "type"))
  ∧ (∀ ds_type,
       entries cfg !! "type" = Some ds_type → supported ds_type →
       entries cfg !! "path" = None →
       FileDataSource.__init__ repr identifier cfg
       = Err (Exc KeyError "path")
       ∧ FileDataSink.__init__ repr identifier cfg
         = Err (Exc KeyError "path")).
Proof.
  split.
  - intros Hty. unfold FileDataSource.__init__, FileDataSink.__init__, getitem.
    by rewrite Hty.
  - intros ds_type Hty Hok%py_in_supported Hpath.
    unfold FileDataSource.__init__, FileDataSink.__init__, getitem.
    rewrite Hty. unfold mbind, result_bind. rewrite Hok. simpl negb. cbv iota.
    by rewrite Hpath.
Qed.

Lemma file_constructor_missing_entry_witness :
  FileDataSource.__init__ Sample.repr "my_datasource"
    {| entries := {[ "path" := VStr "/some/file.csv" ]};
       options_entry := None |}
  = Err (Exc KeyError "type")
  ∧ FileDataSink.__init__ Sample.repr "my_datasink"
      {| entries := {[ "type" := VStr "csv" ]}; options_entry := None |}
    = Err (Exc KeyError "path").
Proof.
  split.
  - exact (proj1 (proj1 (file_constructor_missing_entry Sample.repr
      "my_datasource"
      {| entries := {[ "path" := VStr "/some/file.csv" ]};
         options_entry := None |}) eq_refl)).
  - refine (proj2 (proj2 (file_constructor_missing_entry Sample.repr
      "my_datasink"
      {| entries := {[ "type" := VStr "csv" ]}; options_entry := None |})
      (VStr "csv") eq_refl _ eq_refl)).
    left; left; reflexivity.
Defined.

(** What a file constructor returned tells about the block. *)
Lemma FileDataSource_init_inv repr identifier cfg (self : FileDataSource.t) :
  FileDataSource.__init__ repr identifier cfg = Ok self →
  supported (FileDataSource.type self)
  ∧ entries cfg !! "type" = Some (FileDataSource.type self)
  ∧ entries cfg !! "path" = Some (FileDataSource.path self)
  ∧ FileDataSource.base self = resource.__init__ identifier cfg.
Proof.
  unfold FileDataSource.__init__, getitem.
  destruct (entries cfg !! "type") as [ty|] eqn:Hty; [|done].
  unfold mbind, result_bind.
  destruct (py_in ty SUPPORTED_FILE_TYPES) eqn:Hin; [|done].
  simpl negb. cbv iota.
  destruct (entries cfg !! "path") as [p|] eqn:Hpath; [|done].
  intros [= <-]. simpl. by apply py_in_supported in Hin.
Qed.

Lemma FileDataSink_init_inv repr identifier cfg (self : FileDataSink.t) :
  FileDataSink.__init__ repr identifier cfg = Ok self →
  supported (FileDataSink.type self)
  ∧ entries cfg !! "type" = Some (FileDataSink.type self)
  ∧ entries cfg !! "path" = Some (FileDataSink.path self)
  ∧ FileDataSink.base self = resource.__init__ identifier cfg.
Proof.
  unfold FileDataSink.__init__, getitem.
  destruct (entries cfg !! "type") as [ty|] eqn:Hty; [|done].
  unfold mbind, result_bind.
  destruct (py_in ty SUPPORTED_FILE_TYPES) eqn:Hin; [|done].
  simpl negb. cbv iota.
  destruct (entries cfg !! "path") as [p|] eqn:Hpath; [|done].
  intros [= <-]. simpl. by apply py_in_supported in Hin.
Qed.

(** X2. Whatever a file constructor returns is well formed: the type of
    the instance is one of the four supported tags and is the [type]
    entry of the block, its path is the [path] entry, and its base was
    initialised with the identifier and the block given.  The source and
    the sink constructor accept the same blocks. *)
Theorem file_constructor_result_well_formed
    (repr : value → string) (identifier : string) (cfg : config_block) :
  (∀ self, FileDataSource.__init__ repr identifier cfg = Ok self →
     supported (FileDataSource.type self)
     ∧ entries cfg !! "type" = Some (FileDataSource.type self)
     ∧ entries cfg !! "path" = Some (FileDataSource.path self)
     ∧ FileDataSource.base self = resource.__init__ identifier cfg)
  ∧ (∀ self, FileDataSink.__init__ repr identifier cfg = Ok self →
       supported (FileDataSink.type self)
       ∧ entries cfg !! "type" = Some (FileDataSink.type self)
       ∧ entries cfg !! "path" = Some (FileDataSink.path self)
       ∧ FileDataSink.base self = resource.__init__ identifier cfg)
  ∧ (succeeds (FileDataSource.__init__ repr identifier cfg)
     ↔ succeeds (FileDataSink.__init__ repr identifier cfg)).
Proof.
  split; [|split].
  - intros self. apply FileDataSource_init_inv.
  - intros self. apply FileDataSink_init_inv.
  - unfold FileDataSource.__init__, FileDataSink.__init__, getitem.
    destruct (entries cfg !! "type") as [ty|]; [|done].
    unfold mbind, result_bind.
    destruct (py_in ty SUPPORTED_FILE_TYPES); [|done].
    simpl negb. cbv iota. by destruct (entries cfg !! "path").
Qed.

Lemma file_constructor_result_well_formed_witness :
  supported (FileDataSource.type Sample.euro_csv_sep_source)
  ∧ entries Sample.csv_config !! "path"
    = Some (FileDataSink.path Sample.csv_sink).
Proof.
  pose proof (file_constructor_result_well_formed Sample.repr
    "my_datasource" Sample.euro_csv_sep_config) as (Hsrc & _ & _).
  pose proof (file_constructor_result_well_formed Sample.repr
    "my_datasink" Sample.csv_config) as (_ & Hsnk & _).
  destruct (Hsrc Sample.euro_csv_sep_source eq_refl) as (H1 & _).
  destruct (Hsnk Sample.csv_sink eq_refl) as (_ & _ & H3 & _).
  split; [exact H1 | exact H3].
Defined.

(** ** Advertised tags *)

Lemma py_in_elem_of (tag : string) (l : list string) :
  py_in (VStr tag) l = true ↔ tag ∈ l.
Proof.
  unfold py_in. rewrite existsb_exists. split.
  - intros (s & Hin & Heq). apply bool_decide_eq_true in Heq.
    injection Heq as ->. by apply list_elem_of_In.
  - intros Hin. exists tag. split; [by apply list_elem_of_In|].
    by apply bool_decide_eq_true.
Qed.

(** X3. The tags a file backend advertises in [serves] are the types its
    constructor accepts: for a block with a string [type] and a [path],
    construction succeeds exactly when the type is in [serves].  No tag
    of the file backends is a tag of the Oracle backends, so a tag
    selects at most one kind of backend. *)
Theorem serves_is_what_the_constructor_accepts
    (repr : value → string) (identifier : string) (cfg : config_block)
    (tag : string) (ds_path : value) :
  entries cfg !! "type" = Some (VStr tag) →
  entries cfg !! "path" = Some ds_path →
  (tag ∈ FileDataSource.serves
   ↔ succeeds (FileDataSource.__init__ repr identifier cfg))
  ∧ (tag ∈ FileDataSink.serves
     ↔ succeeds (FileDataSink.__init__ repr identifier cfg))
  ∧ (tag ∈ FileDataSource.serves →
     (tag ∉ OracleDataSource.serves) ∧ (tag ∉ OracleDataSink.serves)).
Proof.
  intros Hty Hpath.
  unfold FileDataSource.serves, FileDataSink.serves,
    FileDataSource.__init__, FileDataSink.__init__, getitem.
  rewrite Hty, Hpath. unfold mbind, result_bind.
  rewrite <- py_in_elem_of.
  split; [|split].
  - by destruct (py_in (VStr tag) SUPPORTED_FILE_TYPES).
  - by destruct (py_in (VStr tag) SUPPORTED_FILE_TYPES).
  - intros Hin%py_in_supported.
    unfold OracleDataSource.serves, OracleDataSink.serves.
    rewrite !list_elem_of_singleton.
    destruct Hin as [[H|H]|[H|H]]; injection H as ->; by split.
Qed.

Lemma serves_is_what_the_constructor_accepts_witness :
  succeeds (FileDataSource.__init__ Sample.repr "my_datasource"
              Sample.binary_config)
  ∧ ¬ succeeds (FileDataSink.__init__ Sample.repr "my_datasink"
                  Sample.xml_config).
Proof.
  split.
  - apply (proj1 (serves_is_what_the_constructor_accepts Sample.repr
      "my_datasource" Sample.binary_config "binary_file"
      (VStr "/some/file.pickle") eq_refl eq_refl)).
    unfold FileDataSource.serves, SUPPORTED_FILE_TYPES. set_solver.
  - intros H.
    apply (proj1 (proj2 (serves_is_what_the_constructor_accepts Sample.repr
      "my_datasink" Sample.xml_config "xml"
      (VStr "/some/file.xml") eq_refl eq_refl))) in H.
    unfold FileDataSink.serves, SUPPORTED_FILE_TYPES in H.
    repeat (apply elem_of_cons in H as [H|H]; [discriminate H|]).
    by apply elem_of_nil in H.
Defined.

(** ** Which calls reach the library *)

Lemma splat_succeeds_euro_csv (kw : gmap string value) :
  succeeds (splat [("sep", VStr ";"); ("decimal", VStr ",")] kw)
  ↔ ¬ sets_sep_or_decimal kw.
Proof.
  split.
  - intros Hok Hkw. by rewrite (euro_csv_keywords_repeated _ Hkw) in Hok.
  - intros Hkw. rewrite splat_fresh; [done|].
    intros key Hin. simpl in Hin.
    apply eq_None_not_Some. intros Hsome. apply Hkw.
    apply elem_of_cons in Hin as [->|Hin]; [by left|].
    apply elem_of_cons in Hin as [->|Hin]; [by right|].
    by apply elem_of_nil in Hin.
Qed.

Lemma sets_sep_or_decimal_insert_index (kw : gmap string value) v :
  sets_sep_or_decimal (<["index" := v]> kw) ↔ sets_sep_or_decimal kw.
Proof. unfold sets_sep_or_decimal. by rewrite !lookup_insert_ne. Qed.

Lemma FileDataSource_get_dataframe_succeeds params
    (self : FileDataSource.t) :
  succeeds (FileDataSource.get_dataframe params false self).1
  ↔ FileDataSource.type self = VStr "csv"
    ∨ (FileDataSource.type self = VStr "euro_csv"
       ∧ ¬ sets_sep_or_decimal (FileDataSource.options self)).
Proof.
  destruct self as [b ty p]. run. simpl.
  repeat case_bool_decide; subst; simpl.
  - split; [by left | done].
  - rewrite <- splat_succeeds_euro_csv.
    destruct (splat _ _); simpl; split; try done.
    + by right.
    + by intros [?|[_ ?]].
  - split; [done|]. by intros [?|[? _]].
Qed.

Lemma FileDataSource_get_raw_succeeds params (self : FileDataSource.t) :
  succeeds (FileDataSource.get_raw params false self).1
  ↔ raw_type (FileDataSource.type self).
Proof.
  destruct self as [b ty p]. run. unfold raw_type. simpl.
  repeat case_bool_decide; subst; simpl; split; try done.
  - by left.
  - by right.
  - by intros [?|?].
Qed.

Lemma FileDataSink_put_dataframe_succeeds df params (self : FileDataSink.t) :
  succeeds (FileDataSink.put_dataframe df params false self).1
  ↔ FileDataSink.type self = VStr "csv"
    ∨ (FileDataSink.type self = VStr "euro_csv"
       ∧ ¬ sets_sep_or_decimal (FileDataSink.options self)).
Proof.
  destruct (decide (FileDataSink.type self = VStr "csv")) as [Hcsv|Hcsv].
  { rewrite (FileDataSink_put_dataframe_csv _ _ _ Hcsv). split; [by left|done]. }
  destruct (decide (FileDataSink.type self = VStr "euro_csv")) as [He|He].
  { rewrite (FileDataSink_put_dataframe_euro_csv _ _ _ He).
    rewrite FileDataSink_put_dataframe_state.
    assert (Hiff : succeeds
        (splat [("sep", VStr ";"); ("decimal", VStr ",")]
           (FileDataSink.options
              (if contains (FileDataSink.options self) "index" then self
               else FileDataSink.setitem_options "index" (VBool false) self)))
      ↔ ¬ sets_sep_or_decimal (FileDataSink.options self)).
    { rewrite splat_succeeds_euro_csv.
      destruct (contains _ "index"); [done|].
      by rewrite FileDataSink_options_setitem,
        sets_sep_or_decimal_insert_index. }
    destruct (splat _ _); simpl in *; split.
    - intros _. right. split; [done | by apply Hiff].
    - done.
    - done.
    - intros [?|[_ H]]; [done | by apply Hiff]. }
  destruct self as [b ty p]; simpl in *. run.
  destruct (contains _ "index"); simpl;
    rewrite !bool_decide_eq_false_2 by done; simpl;
    (split; [done | by intros [?|[? _]]]).
Qed.

Lemma FileDataSink_put_raw_succeeds raw_data params (self : FileDataSink.t) :
  succeeds (FileDataSink.put_raw raw_data params false self).1
  ↔ raw_type (FileDataSink.type self).
Proof.
  destruct self as [b ty p]. run. unfold raw_type. simpl.
  repeat case_bool_decide; subst; simpl; split; try done.
  - by left.
  - by right.
  - by intros [?|?].
Qed.

(** X4. The capability matrix of the file backends, on unbuffered calls.
    [get_dataframe] and [put_dataframe] reach the parser or the writer
    exactly on a [csv] instance and on a [euro_csv] instance whose
    options set neither [sep] nor [decimal]; [get_raw] and [put_raw]
    reach the file exactly on a [text_file] or [binary_file] instance.
    So no instance serves both access shapes. *)
Theorem file_capability_matrix
    (params : option (gmap string value)) (df : DataFrame) (raw_data : Raw)
    (fsrc : FileDataSource.t) (fsnk : FileDataSink.t) :
  (succeeds (FileDataSource.get_dataframe params false fsrc).1
   ↔ FileDataSource.type fsrc = VStr "csv"
     ∨ (FileDataSource.type fsrc = VStr "euro_csv"
        ∧ ¬ sets_sep_or_decimal (FileDataSource.options fsrc)))
  ∧ (succeeds (FileDataSource.get_raw params false fsrc).1
     ↔ raw_type (FileDataSource.type fsrc))
  ∧ (succeeds (FileDataSink.put_dataframe df params false fsnk).1
     ↔ FileDataSink.type fsnk = VStr "csv"
       ∨ (FileDataSink.type fsnk = VStr "euro_csv"
          ∧ ¬ sets_sep_or_decimal (FileDataSink.options fsnk)))
  ∧ (succeeds (FileDataSink.put_raw raw_data params false fsnk).1
     ↔ raw_type (FileDataSink.type fsnk))
  ∧ ¬ (succeeds (FileDataSource.get_dataframe params false fsrc).1
       ∧ succeeds (FileDataSource.get_raw params false fsrc).1)
  ∧ ¬ (succeeds (FileDataSink.put_dataframe df params false fsnk).1
       ∧ succeeds (FileDataSink.put_raw raw_data params false fsnk).1).
Proof.
  split; [apply FileDataSource_get_dataframe_succeeds|].
  split; [apply FileDataSource_get_raw_succeeds|].
  split; [apply FileDataSink_put_dataframe_succeeds|].
  split; [apply FileDataSink_put_raw_succeeds|].
  split.
  - rewrite FileDataSource_get_dataframe_succeeds,
      FileDataSource_get_raw_succeeds. unfold raw_type.
    intros [[H|[H _]] [H'|H']]; rewrite H in H'; discriminate H'.
  - rewrite FileDataSink_put_dataframe_succeeds,
      FileDataSink_put_raw_succeeds. unfold raw_type.
    intros [[H|[H _]] [H'|H']]; rewrite H in H'; discriminate H'.
Qed.

Lemma file_capability_matrix_witness :
  succeeds (FileDataSource.get_dataframe None false
              Sample.euro_csv_source).1
  ∧ ¬ succeeds (FileDataSource.get_dataframe None false
                  Sample.euro_csv_sep_source).1
  ∧ succeeds (FileDataSink.put_raw (RawStr "text") None false
                Sample.text_sink).1
  ∧ ¬ succeeds (FileDataSink.put_dataframe Sample.frame None false
                  Sample.text_sink).1.
Proof.
  pose proof (file_capability_matrix None Sample.frame (RawStr "text")
    Sample.euro_csv_source Sample.text_sink) as (H1 & _ & H3 & H4 & _).
  pose proof (file_capability_matrix None Sample.frame (RawStr "text")
    Sample.euro_csv_sep_source Sample.text_sink) as (H2 & _).
  split; [|split; [|split]].
  - apply H1. right. split; [reflexivity|]. intros [[v H]|[v H]]; discriminate H.
  - intros H. apply H2 in H as [H|[_ H]]; [discriminate H|].
    apply H. left. by eexists.
  - apply H4. left. reflexivity.
  - intros H. apply H3 in H as [H|[H _]]; discriminate H.
Defined.

(** ** What the guarded methods can raise *)

(** X5. The four methods of the file backends fail in two ways only: a
    buffered call raises [NotImplementedError] and an unbuffered call
    either reaches the library or raises [TypeError].  In particular they
    never raise [KeyError] or [AttributeError], whatever instance they
    are called on. *)
Theorem file_methods_raise_only_NotImplementedError_or_TypeError
    (params : option (gmap string value)) (df : DataFrame) (raw_data : Raw)
    (buffer : bool) (fsrc : FileDataSource.t) (fsnk : FileDataSink.t) :
  guarded_outcome buffer (FileDataSource.get_dataframe params buffer fsrc).1
  ∧ guarded_outcome buffer (FileDataSource.get_raw params buffer fsrc).1
  ∧ guarded_outcome buffer
      (FileDataSink.put_dataframe df params buffer fsnk).1
  ∧ guarded_outcome buffer
      (FileDataSink.put_raw raw_data params buffer fsnk).1.
Proof.
  destruct buffer; [by repeat split|].
  destruct fsrc as [b ty p], fsnk as [b' ty' p'].
  repeat split; run; simpl.
  - repeat case_bool_decide; simpl; try done.
    unfold splat. by destruct (repeats _ _).
  - by repeat case_bool_decide.
  - destruct (contains _ "index"); simpl;
      repeat case_bool_decide; simpl; try done;
      unfold splat; by destruct (repeats _ _).
  - by repeat case_bool_decide.
Qed.

(** ** What the writers receive *)

Lemma FileDataSink_index_after_put_dataframe df params
    (self : FileDataSink.t) :
  FileDataSink.options (FileDataSink.put_dataframe df params false self).2
    !! "index"
  = Some (default (VBool false) (FileDataSink.options self !! "index")).
Proof.
  rewrite FileDataSink_put_dataframe_state.
  destruct (contains _ "index") eqn:E.
  - apply contains_true in E as [v Hv]. by rewrite Hv.
  - apply contains_false in E. rewrite FileDataSink_options_setitem.
    by rewrite lookup_insert_eq, E.
Qed.

Lemma OracleDataSink_index_after_put_dataframe df params
    (self : OracleDataSink.t) :
  is_Some (entries (resource.config (OracleDataSink.base self)) !! "table") →
  OracleDataSink.options (OracleDataSink.put_dataframe df params false self).2
    !! "index"
  = Some (default (VBool false) (OracleDataSink.options self !! "index")).
Proof.
  intros [tbl Ht]. rewrite OracleDataSink_put_dataframe_state, Ht.
  destruct (contains _ "index") eqn:E.
  - apply contains_true in E as [v Hv]. by rewrite Hv.
  - apply contains_false in E. rewrite OracleDataSink_options_setitem.
    by rewrite lookup_insert_eq, E.
Qed.

(** The outcome of an unbuffered [put_dataframe] on a database sink. *)
Lemma OracleDataSink_put_dataframe_result df params
    (self : OracleDataSink.t) :
  (OracleDataSink.put_dataframe df params false self).1
  = match entries (resource.config (OracleDataSink.base self)) !! "table" with
    | None => Err (Exc KeyError "table")
    | Some table =>
        match OracleDataSink.connection self with
        | None => Err (Exc AttributeError "connection")
        | Some con =>
            let kw := OracleDataSink.options
                        (OracleDataSink.put_dataframe df params false self).2
            in
            if repeats ["con"] kw then Err multiple_values
            else Ok (to_sql df table con kw)
        end
    end.
Proof.
  rewrite OracleDataSink_put_dataframe_state.
  run. unfold getitem.
  destruct (entries _ !! "table"); [|done].
  destruct (contains _ "index"); simpl;
    (destruct (OracleDataSink.connection self); simpl; [|done]);
    by match goal with |- context [if ?b then _ else _] => destruct b end.
Qed.

Lemma euro_csv_keywords_lookup (kw : gmap string value) key :
  key ≠ "sep" → key ≠ "decimal" →
  (list_to_map [("sep", VStr ";"); ("decimal", VStr ",")] ∪ kw) !! key
  = kw !! key.
Proof.
  intros Hs Hd. apply lookup_union_r. simpl.
  by rewrite !lookup_insert_ne.
Qed.

(** X6. Whenever [put_dataframe] reaches the writer, the writer is given
    an [index] keyword: the value the options map had for it, and [False]
    when the map had none.  This holds for [to_csv] on a file sink and
    for [to_sql] on a database sink, which is called on the configured
    table and on the connection of the instance. *)
Theorem writer_is_always_given_index
    (df : DataFrame) (params : option (gmap string value))
    (fsnk : FileDataSink.t) (osnk : OracleDataSink.t) (call : libcall) :
  ((FileDataSink.put_dataframe df params false fsnk).1 = Ok call →
     ∃ kw, call = to_csv df (FileDataSink.path fsnk) kw
           ∧ kw !! "index"
             = Some (default (VBool false)
                       (FileDataSink.options fsnk !! "index")))
  ∧ ((OracleDataSink.put_dataframe df params false osnk).1 = Ok call →
       ∃ table con kw,
         call = to_sql df table con kw
         ∧ entries (resource.config (OracleDataSink.base osnk)) !! "table"
           = Some table
         ∧ OracleDataSink.connection osnk = Some con
         ∧ kw !! "index"
           = Some (default (VBool false)
                     (OracleDataSink.options osnk !! "index"))).
Proof.
  split.
  - intros Hcall.
    assert (Hok : succeeds (FileDataSink.put_dataframe df params false fsnk).1)
      by by rewrite Hcall.
    apply FileDataSink_put_dataframe_succeeds in Hok as [Hty|[Hty Hkw]].
    + rewrite (FileDataSink_put_dataframe_csv _ _ _ Hty) in Hcall.
      injection Hcall as <-. eexists. split; [done|].
      apply FileDataSink_index_after_put_dataframe.
    + rewrite (FileDataSink_put_dataframe_euro_csv _ _ _ Hty) in Hcall.
      destruct (splat _ _) as [kw|e] eqn:Hsplat; [|done].
      injection Hcall as <-. eexists. split; [done|].
      unfold splat in Hsplat. destruct (repeats _ _); [done|].
      injection Hsplat as <-.
      rewrite euro_csv_keywords_lookup by done.
      apply FileDataSink_index_after_put_dataframe.
  - rewrite OracleDataSink_put_dataframe_result.
    destruct (entries _ !! "table") as [table|] eqn:Ht; [|done].
    destruct (OracleDataSink.connection osnk) as [con|]; [|done].
    cbv zeta. destruct (repeats _ _); [done|].
    intros [= <-]. eexists _, _, _. split; [done|]. split; [done|].
    split; [done|].
    apply OracleDataSink_index_after_put_dataframe. by rewrite Ht.
Qed.

Lemma writer_is_always_given_index_witness :
  (∃ kw, to_csv Sample.frame (VStr "/some/file.csv")
           {[ "index" := VBool true ]}
         = to_csv Sample.frame (FileDataSink.path Sample.csv_index_sink) kw
         ∧ kw !! "index" = Some (VBool true))
  ∧ (∃ table con kw,
       to_sql Sample.frame (VStr "somewhere.my_table") (Connection 1)
         {[ "index" := VBool false ]}
       = to_sql Sample.frame table con kw
       ∧ entries (resource.config (OracleDataSink.base Sample.oracle_sink))
           !! "table" = Some table
       ∧ OracleDataSink.connection Sample.oracle_sink = Some con
       ∧ kw !! "index" = Some (VBool false)).
Proof.
  split.
  - exact (proj1 (writer_is_always_given_index Sample.frame None
      Sample.csv_index_sink Sample.oracle_sink
      (to_csv Sample.frame (VStr "/some/file.csv")
         {[ "index" := VBool true ]})) eq_refl).
  - exact (proj2 (writer_is_always_given_index Sample.frame None
      Sample.csv_index_sink Sample.oracle_sink
      (to_sql Sample.frame (VStr "somewhere.my_table") (Connection 1)
         {[ "index" := VBool false ]})) eq_refl).
Defined.

Lemma splat_euro_csv_fresh (kw : gmap string value) :
  ¬ sets_sep_or_decimal kw →
  splat [("sep", VStr ";"); ("decimal", VStr ",")] kw
  = Ok (list_to_map [("sep", VStr ";"); ("decimal", VStr ",")] ∪ kw).
Proof.
  intros Hkw. apply splat_fresh. intros key Hin. simpl in Hin.
  apply eq_None_not_Some. intros Hsome. apply Hkw.
  apply elem_of_cons in Hin as [->|Hin]; [by left|].
  apply elem_of_cons in Hin as [->|Hin]; [by right|].
  by apply elem_of_nil in Hin.
Qed.

Lemma euro_csv_keywords_sep_decimal (kw : gmap string value) :
  (list_to_map [("sep", VStr ";"); ("decimal", VStr ",")] ∪ kw) !! "sep"
  = Some (VStr ";")
  ∧ (list_to_map [("sep", VStr ";"); ("decimal", VStr ",")] ∪ kw) !! "decimal"
    = Some (VStr ",").
Proof. split; by apply lookup_union_Some_l. Qed.

(** X7. A [euro_csv] source and a [euro_csv] sink whose options set
    neither [sep] nor [decimal] hand the same conventions to the parser
    and to the writer: both receive [sep] as a semicolon and [decimal] as
    a comma, and every other option as it is configured (the writer
    besides its [index] keyword). *)
Theorem euro_csv_reader_and_writer_agree
    (df : DataFrame) (params : option (gmap string value))
    (fsrc : FileDataSource.t) (fsnk : FileDataSink.t) :
  FileDataSource.type fsrc = VStr "euro_csv" →
  FileDataSink.type fsnk = VStr "euro_csv" →
  ¬ sets_sep_or_decimal (FileDataSource.options fsrc) →
  ¬ sets_sep_or_decimal (FileDataSink.options fsnk) →
  ∃ kw_r kw_w,
    (FileDataSource.get_dataframe params false fsrc).1
    = Ok (pd_read_csv (FileDataSource.path fsrc) kw_r)
    ∧ (FileDataSink.put_dataframe df params false fsnk).1
      = Ok (to_csv df (FileDataSink.path fsnk) kw_w)
    ∧ kw_r !! "sep" = Some (VStr ";") ∧ kw_w !! "sep" = Some (VStr ";")
    ∧ kw_r !! "decimal" = Some (VStr ",")
    ∧ kw_w !! "decimal" = Some (VStr ",")
    ∧ (∀ key, key ≠ "sep" → key ≠ "decimal" →
         kw_r !! key = FileDataSource.options fsrc !! key)
    ∧ (∀ key, key ≠ "sep" → key ≠ "decimal" → key ≠ "index" →
         kw_w !! key = FileDataSink.options fsnk !! key).
Proof.
  intros Hsrc Hsnk Hr Hw.
  assert (Hw' : ¬ sets_sep_or_decimal (FileDataSink.options
            (FileDataSink.put_dataframe df params false fsnk).2)).
  { rewrite FileDataSink_put_dataframe_state.
    destruct (contains _ "index"); [done|].
    by rewrite FileDataSink_options_setitem,
      sets_sep_or_decimal_insert_index. }
  eexists _, _.
  rewrite (FileDataSource_get_dataframe_euro_csv _ _ Hsrc),
    (FileDataSink_put_dataframe_euro_csv _ _ _ Hsnk).
  rewrite (splat_euro_csv_fresh _ Hr), (splat_euro_csv_fresh _ Hw').
  split; [done|]. split; [done|].
  split; [apply euro_csv_keywords_sep_decimal|].
  split; [apply euro_csv_keywords_sep_decimal|].
  split; [apply euro_csv_keywords_sep_decimal|].
  split; [apply euro_csv_keywords_sep_decimal|].
  split.
  - intros key Hs Hd. by apply euro_csv_keywords_lookup.
  - intros key Hs Hd Hi. rewrite euro_csv_keywords_lookup by done.
    by apply put_dataframe_options_other_keys.
Qed.

Lemma euro_csv_reader_and_writer_agree_witness :
  ∃ kw_r kw_w,
    (FileDataSource.get_dataframe None false Sample.euro_csv_source).1
    = Ok (pd_read_csv (VStr "/some/file.csv") kw_r)
    ∧ (FileDataSink.put_dataframe Sample.frame None false
         Sample.euro_csv_sink).1
      = Ok (to_csv Sample.frame (VStr "/some/file.csv") kw_w)
    ∧ kw_r !! "sep" = kw_w !! "sep"
    ∧ kw_r !! "decimal" = kw_w !! "decimal".
Proof.
  assert (Hno : ∀ kw : gmap string value,
            kw !! "sep" = None → kw !! "decimal" = None →
            ¬ sets_sep_or_decimal kw).
  { intros kw Hs Hd [[v H]|[v H]]; congruence. }
  destruct (euro_csv_reader_and_writer_agree Sample.frame None
    Sample.euro_csv_source Sample.euro_csv_sink eq_refl eq_refl
    (Hno (FileDataSource.options Sample.euro_csv_source) eq_refl eq_refl)
    (Hno (FileDataSink.options Sample.euro_csv_sink) eq_refl eq_refl))
    as (kw_r & kw_w & H1 & H2 & H3 & H4 & H5 & H6 & _).
  exists kw_r, kw_w. split; [exact H1|]. split; [exact H2|].
  split; congruence.
Defined.

(** ** Calls that fail after or before touching the options *)

(** X8. A failing [put_dataframe] is not always without effect.  On a
    [text_file] or [binary_file] sink whose options have no [index] key,
    an unbuffered call raises the [TypeError] and still leaves
    [index := False] in the options of the instance.  On a database sink
    whose configuration has no [table] entry, it raises [KeyError] on
    [table] and leaves the instance as it was. *)
Theorem put_dataframe_failure_effects
    (df : DataFrame) (params : option (gmap string value))
    (fsnk : FileDataSink.t) (osnk : OracleDataSink.t) :
  (raw_type (FileDataSink.type fsnk) →
   FileDataSink.options fsnk !! "index" = None →
   raises TypeError (FileDataSink.put_dataframe df params false fsnk).1
   ∧ FileDataSink.options (FileDataSink.put_dataframe df params false fsnk).2
     = <["index" := VBool false]> (FileDataSink.options fsnk))
  ∧ (entries (resource.config (OracleDataSink.base osnk)) !! "table" = None →
     OracleDataSink.put_dataframe df params false osnk
     = (Err (Exc KeyError "table"), osnk)).
Proof.
  split.
  - intros Hty Hidx. split.
    + pose proof (FileDataSink_put_dataframe_raw_type df params fsnk Hty) as H.
      destruct (FileDataSink.put_dataframe df params false fsnk).1; [done|].
      by destruct H.
    + rewrite FileDataSink_put_dataframe_state.
      apply contains_false in Hidx. by rewrite Hidx.
  - intros Ht. run. unfold getitem. by rewrite Ht.
Qed.

Lemma put_dataframe_failure_effects_witness :
  (raises TypeError
     (FileDataSink.put_dataframe Sample.frame None false Sample.text_sink).1
   ∧ FileDataSink.options
       (FileDataSink.put_dataframe Sample.frame None false Sample.text_sink).2
     = <["index" := VBool false]> (FileDataSink.options Sample.text_sink))
  ∧ OracleDataSink.put_dataframe Sample.frame None false
      (OracleDataSink.__init__ (Some Sample.driver_up) Sample.environ
         "my_datasink" Sample.query_config Sample.dbms_config).1
    = (Err (Exc KeyError "table"),
       (OracleDataSink.__init__ (Some Sample.driver_up) Sample.environ
          "my_datasink" Sample.query_config Sample.dbms_config).1).
Proof.
  split.
  - refine (proj1 (put_dataframe_failure_effects Sample.frame None
      Sample.text_sink Sample.oracle_sink) _ eq_refl).
    left; reflexivity.
  - exact (proj2 (put_dataframe_failure_effects Sample.frame None
      Sample.text_sink
      (OracleDataSink.__init__ (Some Sample.driver_up) Sample.environ
         "my_datasink" Sample.query_config Sample.dbms_config).1) eq_refl).
Defined.

(** ** Instances under any sequence of calls *)

Lemma FileDataSink_call_state (c : sink_call) (self : FileDataSink.t) :
  (FileDataSink_call c self).2 = self
  ∨ (FileDataSink.options self !! "index" = None
     ∧ (FileDataSink_call c self).2
       = FileDataSink.setitem_options "index" (VBool false) self).
Proof.
  destruct c as [df params buffer|raw_data params buffer]; simpl.
  - rewrite FileDataSink_put_dataframe_state.
    destruct buffer; [by left|].
    destruct (contains _ "index") eqn:E; [by left|].
    right. by apply contains_false in E.
  - left. apply FileDataSink_put_raw_frame.
Qed.

Lemma FileDataSource_after_calls (cs : list source_call)
    (self : FileDataSource.t) :
  after_calls FileDataSource_call cs self = self.
Proof.
  induction cs as [|c cs IH]; [done|]. simpl.
  assert ((FileDataSource_call c self).2 = self) as ->; [|done].
  destruct c; apply FileDataSource_methods_frame.
Qed.

(** X9. However a caller uses a file backend, the instance keeps what
    construction gave it.  A file source is the same instance after any
    sequence of calls.  A file sink keeps its type, its path, its
    identifier and the entries of its configuration, and its options map
    is the original one or the original one with [index := False] added;
    a sink whose options had an [index] key from the start never changes
    at all. *)
Theorem file_instances_after_any_calls
    (reads : list source_call) (writes : list sink_call)
    (fsrc : FileDataSource.t) (fsnk : FileDataSink.t) :
  let fsnk' := after_calls FileDataSink_call writes fsnk in
  after_calls FileDataSource_call reads fsrc = fsrc
  ∧ FileDataSink.type fsnk' = FileDataSink.type fsnk
  ∧ FileDataSink.path fsnk' = FileDataSink.path fsnk
  ∧ resource.id (FileDataSink.base fsnk')
    = resource.id (FileDataSink.base fsnk)
  ∧ entries (resource.config (FileDataSink.base fsnk'))
    = entries (resource.config (FileDataSink.base fsnk))
  ∧ (FileDataSink.options fsnk' = FileDataSink.options fsnk
     ∨ (FileDataSink.options fsnk !! "index" = None
        ∧ FileDataSink.options fsnk'
          = <["index" := VBool false]> (FileDataSink.options fsnk)))
  ∧ (is_Some (FileDataSink.options fsnk !! "index") → fsnk' = fsnk).
Proof.
  intros fsnk'. split; [apply FileDataSource_after_calls|]. subst fsnk'.
  revert fsnk. induction writes as [|c cs IH]; intros fsnk.
  { simpl. repeat split; by left. }
  simpl. specialize (IH (FileDataSink_call c fsnk).2).
  destruct (FileDataSink_call_state c fsnk) as [E|[Hnone E]];
    rewrite E in *; [done|].
  destruct IH as (Hty & Hp & Hid & Hent & Hopts & Hfix).
  rewrite FileDataSink_options_setitem in Hopts, Hfix.
  rewrite Hty, Hp, Hid, Hent. do 4 (split; [done|]). split.
  - right. split; [done|]. destruct Hopts as [->|[Habs _]]; [done|].
    by rewrite lookup_insert_eq in Habs.
  - intros [v Hv]. congruence.
Qed.

Lemma file_instances_after_any_calls_witness :
  after_calls FileDataSink_call
    [call_put_raw (RawStr "text") None false;
     call_put_dataframe Sample.frame None false;
     call_put_dataframe Sample.frame None true]
    Sample.csv_index_sink
  = Sample.csv_index_sink.
Proof.
  refine (proj2 (proj2 (proj2 (proj2 (proj2 (proj2
    (file_instances_after_any_calls [] _ Sample.csv_source
       Sample.csv_index_sink)))))) _).
  by eexists.
Defined.

Lemma OracleDataSource_after_calls (cs : list source_call)
    (self : OracleDataSource.t) :
  after_calls OracleDataSource_call cs self = self.
Proof.
  induction cs as [|c cs IH]; [done|]. simpl.
  assert ((OracleDataSource_call c self).2 = self) as ->; [|done].
  destruct c; apply OracleDataSource_methods_frame.
Qed.

Lemma OracleDataSink_call_connection (c : sink_call)
    (self : OracleDataSink.t) :
  OracleDataSink.connection (OracleDataSink_call c self).2
  = OracleDataSink.connection self.
Proof.
  destruct c as [df params buffer|raw_data params buffer]; [|done]. simpl.
  rewrite OracleDataSink_put_dataframe_state.
  destruct buffer; [done|]. destruct (entries _ !! "table"); [|done].
  by destruct (contains _ "index").
Qed.

Lemma OracleDataSink_after_calls_connection (cs : list sink_call)
    (self : OracleDataSink.t) :
  OracleDataSink.connection (after_calls OracleDataSink_call cs self)
  = OracleDataSink.connection self.
Proof.
  revert self. induction cs as [|c cs IH]; intros self; [done|]. simpl.
  by rewrite IH, OracleDataSink_call_connection.
Qed.

(** X10. No method call stands between a database backend and its
    teardown.  After a completed construction and any sequence of calls
    on the instance, buffered or not, failing or not, [__del__] still
    calls [close()] once, on the connection the factory returned at
    construction. *)
Theorem oracle_teardown_after_any_calls
    (cx_Oracle : option cx_Oracle_module) (environ : gmap string string)
    (close : db_connection → option pyexc)
    (identifier : string) (cfg dbms_cfg : config_block)
    (reads : list source_call) (writes : list sink_call)
    (c : db_connection) :
  _get_oracle_connection cx_Oracle environ dbms_cfg = Ok c →
  OracleDataSource.__del__ close
    (after_calls OracleDataSource_call reads
       (OracleDataSource.__init__ cx_Oracle environ identifier cfg
          dbms_cfg).1)
  = ([c], close c)
  ∧ OracleDataSink.__del__ close
      (after_calls OracleDataSink_call writes
         (OracleDataSink.__init__ cx_Oracle environ identifier cfg
            dbms_cfg).1)
    = ([c], close c).
Proof.
  intros Hc. split.
  - rewrite OracleDataSource_after_calls.
    unfold OracleDataSource.__init__. by rewrite Hc.
  - unfold OracleDataSink.__del__.
    rewrite OracleDataSink_after_calls_connection.
    unfold OracleDataSink.__init__. by rewrite Hc.
Qed.

Lemma oracle_teardown_after_any_calls_witness :
  OracleDataSink.__del__ Sample.close_quietly
    (after_calls OracleDataSink_call
       [call_put_dataframe Sample.frame None false;
        call_put_raw (RawStr "text") None false;
        call_put_dataframe Sample.frame None true]
       Sample.oracle_sink)
  = ([Connection 1], None).
Proof.
  exact (proj2 (oracle_teardown_after_any_calls (Some Sample.driver_up)
    Sample.environ Sample.close_quietly "my_datasink" Sample.table_config
    Sample.dbms_config [] _ (Connection 1) eq_refl)).
Defined.

(** ** The connection factory, step by step *)

(** With every entry present, the credentials resolved and the
    descriptor built, the factory is the driver's [connect] on them. *)
Lemma _get_oracle_connection_reaches_connect drv environ cfg user_var
    password_var user pw host port service_name dsn :
  entries cfg !! "user_var" = Some user_var →
  entries cfg !! "password_var" = Some password_var →
  resource.get_user_pw environ user_var password_var = Ok (user, pw) →
  entries cfg !! "host" = Some host →
  entries cfg !! "port" = Some port →
  entries cfg !! "service_name" = Some service_name →
  makedsn drv host port service_name = Ok dsn →
  _get_oracle_connection (Some drv) environ cfg
  = connect drv user pw dsn (default ∅ (options_entry cfg)).
Proof.
  intros Hu Hp Hcred Hh Hpo Hs Hdsn. unfold _get_oracle_connection, getitem.
  rewrite Hu, Hp, Hh, Hpo, Hs. unfold mbind, result_bind.
  by rewrite Hcred, Hdsn.
Qed.

(** X11. The factory returns a connection only when the driver is
    installed, the block has the entries [user_var], [password_var],
    [host], [port] and [service_name], [get_user_pw] resolved the two
    variable names and [makedsn] built a descriptor; the connection is
    then the one the driver's [connect] returned for the resolved
    username and password, that descriptor, and the options of the block
    (none when the block has no [options]). *)
Theorem connection_factory_success
    (cx_Oracle : option cx_Oracle_module) (environ : gmap string string)
    (cfg : config_block) (c : db_connection) :
  _get_oracle_connection cx_Oracle environ cfg = Ok c →
  ∃ drv user_var password_var user pw host port service_name dsn,
    cx_Oracle = Some drv
    ∧ entries cfg !! "user_var" = Some user_var
    ∧ entries cfg !! "password_var" = Some password_var
    ∧ resource.get_user_pw environ user_var password_var = Ok (user, pw)
    ∧ entries cfg !! "host" = Some host
    ∧ entries cfg !! "port" = Some port
    ∧ entries cfg !! "service_name" = Some service_name
    ∧ makedsn drv host port service_name = Ok dsn
    ∧ connect drv user pw dsn (default ∅ (options_entry cfg)) = Ok c.
Proof.
  unfold _get_oracle_connection, getitem.
  destruct cx_Oracle as [drv|]; [|done].
  destruct (entries cfg !! "user_var") as [user_var|] eqn:Hu; [|done].
  destruct (entries cfg !! "password_var") as [password_var|] eqn:Hp; [|done].
  unfold mbind, result_bind.
  destruct (resource.get_user_pw environ user_var password_var)
    as [[user pw]|] eqn:Hcred; [|done].
  destruct (entries cfg !! "host") as [host|] eqn:Hh; [|done].
  destruct (entries cfg !! "port") as [port|] eqn:Hpo; [|done].
  destruct (entries cfg !! "service_name") as [sn|] eqn:Hs; [|done].
  destruct (makedsn drv host port sn) as [dsn|] eqn:Hdsn; [|done].
  intros Hc.
  by exists drv, user_var, password_var, user, pw, host, port, sn, dsn.
Qed.

Lemma connection_factory_success_witness :
  ∃ drv user_var password_var user pw host port service_name dsn,
    Some Sample.driver_up = Some drv
    ∧ entries Sample.dbms_config !! "user_var" = Some user_var
    ∧ entries Sample.dbms_config !! "password_var" = Some password_var
    ∧ resource.get_user_pw Sample.environ user_var password_var
      = Ok (user, pw)
    ∧ entries Sample.dbms_config !! "host" = Some host
    ∧ entries Sample.dbms_config !! "port" = Some port
    ∧ entries Sample.dbms_config !! "service_name" = Some service_name
    ∧ makedsn drv host port service_name = Ok dsn
    ∧ connect drv user pw dsn
        (default ∅ (options_entry Sample.dbms_config)) = Ok (Connection 1).
Proof.
  exact (connection_factory_success (Some Sample.driver_up)
    Sample.environ Sample.dbms_config (Connection 1) eq_refl).
Defined.

(** X12. The order in which the factory fails on an incomplete set-up.
    A missing driver comes first, whatever the block; then a missing
    [user_var] entry; then a failure of [get_user_pw], which is passed on
    as it is and before the descriptor entries are looked at; then a
    missing [host], [port] or [service_name] entry, in that order. *)
Theorem connection_factory_failure_order
    (drv : cx_Oracle_module) (environ : gmap string string)
    (cfg : config_block) :
  raises ImportError (_get_oracle_connection None environ cfg)
  ∧ (entries cfg !! "user_var" = None →
     _get_oracle_connection (Some drv) environ cfg
     = Err (Exc KeyError "user_var"))
  ∧ (∀ user_var password_var,
       entries cfg !! "user_var" = Some user_var →
       entries cfg !! "password_var" = Some password_var →
       (∀ e, resource.get_user_pw environ user_var password_var = Err e →
             _get_oracle_connection (Some drv) environ cfg = Err e)
       ∧ (succeeds (resource.get_user_pw environ user_var password_var) →
          (entries cfg !! "host" = None →
           _get_oracle_connection (Some drv) environ cfg
           = Err (Exc KeyError "host"))
          ∧ (is_Some (entries cfg !! "host") →
             entries cfg !! "port" = None →
             _get_oracle_connection (Some drv) environ cfg
             = Err (Exc KeyError "port"))
          ∧ (is_Some (entries cfg !! "host") →
             is_Some (entries cfg !! "port") →
             entries cfg !! "service_name" = None →
             _get_oracle_connection (Some drv) environ cfg
             = Err (Exc KeyError "service_name")))).
Proof.
  split; [done|]. split.
  - intros Hu. unfold _get_oracle_connection, getitem. by rewrite Hu.
  - intros user_var password_var Hu Hp.
    unfold _get_oracle_connection, getitem.
    rewrite Hu, Hp. unfold mbind, result_bind. split.
    + by intros e ->.
    + destruct (resource.get_user_pw environ user_var password_var)
        as [[user pw]|]; [intros _|done].
      split; [|split].
      * by intros ->.
      * by intros [host ->] ->.
      * by intros [host ->] [port ->] ->.
Qed.

Lemma connection_factory_failure_order_witness :
  _get_oracle_connection (Some Sample.driver_up) ∅
    {| entries := {[ "user_var" := VStr "MY_USER_ENV_VAR";
                     "password_var" := VStr "MY_PW_ENV_VAR" ]};
       options_entry := None |}
  = Err (Exc MissingCredentialError "user name variable not set")
  ∧ _get_oracle_connection (Some Sample.driver_up) Sample.environ
      {| entries := {[ "user_var" := VStr "MY_USER_ENV_VAR";
                       "password_var" := VStr "MY_PW_ENV_VAR" ]};
         options_entry := None |}
    = Err (Exc KeyError "host")
  ∧ _get_oracle_connection (Some Sample.driver_up) Sample.environ
      {| entries := {[ "password_var" := VStr "MY_PW_ENV_VAR" ]};
         options_entry := None |}
    = Err (Exc KeyError "user_var").
Proof.
  split; [|split].
  - exact (proj1 (proj2 (proj2 (connection_factory_failure_order
      Sample.driver_up ∅
      {| entries := {[ "user_var" := VStr "MY_USER_ENV_VAR";
                       "password_var" := VStr "MY_PW_ENV_VAR" ]};
         options_entry := None |}))
      (VStr "MY_USER_ENV_VAR") (VStr "MY_PW_ENV_VAR") eq_refl eq_refl)
      _ eq_refl).
  - exact (proj1 (proj2 (proj2 (proj2 (connection_factory_failure_order
      Sample.driver_up Sample.environ
      {| entries := {[ "user_var" := VStr "MY_USER_ENV_VAR";
                       "password_var" := VStr "MY_PW_ENV_VAR" ]};
         options_entry := None |}))
      (VStr "MY_USER_ENV_VAR") (VStr "MY_PW_ENV_VAR") eq_refl eq_refl) I)
      eq_refl).
  - exact (proj1 (proj2 (connection_factory_failure_order
      Sample.driver_up Sample.environ
      {| entries := {[ "password_var" := VStr "MY_PW_ENV_VAR" ]};
         options_entry := None |})) eq_refl).
Defined.

(** ** Construction of database backends *)

(** X13. When the block is complete and the credentials are resolved but
    the driver's [connect] fails, the failure reaches the caller of the
    constructor unchanged, for a source and for a sink alike; the
    instance is left without a connection, and its teardown calls no
    [close()]. *)
Theorem oracle_construction_propagates_connect_failure
    (drv : cx_Oracle_module) (environ : gmap string string)
    (close : db_connection → option pyexc)
    (identifier : string) (cfg dbms_cfg : config_block)
    (user_var password_var host port service_name : value)
    (user : string) (pw : option string) (dsn : string) (e : pyexc) :
  entries dbms_cfg !! "user_var" = Some user_var →
  entries dbms_cfg !! "password_var" = Some password_var →
  resource.get_user_pw environ user_var password_var = Ok (user, pw) →
  entries dbms_cfg !! "host" = Some host →
  entries dbms_cfg !! "port" = Some port →
  entries dbms_cfg !! "service_name" = Some service_name →
  makedsn drv host port service_name = Ok dsn →
  connect drv user pw dsn (default ∅ (options_entry dbms_cfg)) = Err e →
  let src := OracleDataSource.__init__ (Some drv) environ identifier cfg
               dbms_cfg in
  let snk := OracleDataSink.__init__ (Some drv) environ identifier cfg
               dbms_cfg in
  src.2 = Some e ∧ OracleDataSource.connection src.1 = None
  ∧ OracleDataSource.__del__ close src.1 = ([], None)
  ∧ snk.2 = Some e ∧ OracleDataSink.connection snk.1 = None
  ∧ OracleDataSink.__del__ close snk.1 = ([], None).
Proof.
  intros Hu Hp Hcred Hh Hpo Hs Hdsn Hconn src snk. subst src snk.
  unfold OracleDataSource.__init__, OracleDataSink.__init__.
  rewrite (_get_oracle_connection_reaches_connect _ _ _ _ _ _ _ _ _ _ _
             Hu Hp Hcred Hh Hpo Hs Hdsn), Hconn.
  by repeat split.
Qed.

Lemma oracle_construction_propagates_connect_failure_witness :
  (OracleDataSource.__init__ (Some Sample.driver_down) Sample.environ
     "my_datasource" Sample.query_config Sample.dbms_config).2
  = Some (Exc DatabaseError "ORA-12541: TNS:no listener")
  ∧ OracleDataSource.__del__ Sample.close_quietly
      (OracleDataSource.__init__ (Some Sample.driver_down) Sample.environ
         "my_datasource" Sample.query_config Sample.dbms_config).1
    = ([], None).
Proof.
  destruct (oracle_construction_propagates_connect_failure
    Sample.driver_down Sample.environ Sample.close_quietly "my_datasource"
    Sample.query_config Sample.dbms_config
    (VStr "MY_USER_ENV_VAR") (VStr "MY_PW_ENV_VAR")
    (VStr "host.example.com") (VInt 1251) (VStr "servicename.example.com")
    "scott" (Some "tiger") "dsn"
    (Exc DatabaseError "ORA-12541: TNS:no listener")
    eq_refl eq_refl eq_refl eq_refl eq_refl eq_refl eq_refl eq_refl)
    as (H1 & _ & H2 & _).
  split; [exact H1 | exact H2].
Defined.

(** ** Queries on a constructed source *)

(** X14. On a database source whose construction completed, an
    unbuffered [get_dataframe] never fails for want of a connection.
    Without a [query] entry it raises [KeyError] on [query]; with one,
    and options that set neither [con] nor [params], it reaches
    [pd.read_sql] with the configured query, the connection opened at
    construction, the options of the instance, and the caller's
    parameters, where no parameters and an empty dictionary are the same
    call; with such an option it raises the repeated-keyword [TypeError].
    The instance is unchanged in every case. *)
Theorem constructed_oracle_source_get_dataframe
    (cx_Oracle : option cx_Oracle_module) (environ : gmap string string)
    (identifier : string) (cfg dbms_cfg : config_block)
    (c : db_connection) (params : option (gmap string value)) :
  _get_oracle_connection cx_Oracle environ dbms_cfg = Ok c →
  let self := (OracleDataSource.__init__ cx_Oracle environ identifier cfg
                 dbms_cfg).1 in
  let self_config := resource.config (OracleDataSource.base self) in
  let kw := OracleDataSource.options self in
  (entries self_config !! "query" = None →
     OracleDataSource.get_dataframe params false self
     = (Err (Exc KeyError "query"), self))
  ∧ (∀ query, entries self_config !! "query" = Some query →
       (kw !! "con" = None → kw !! "params" = None →
        OracleDataSource.get_dataframe params false self
        = (Ok (pd_read_sql_fillna query c (default ∅ params) kw), self))
       ∧ (is_Some (kw !! "con") ∨ is_Some (kw !! "params") →
          OracleDataSource.get_dataframe params false self
          = (Err multiple_values, self)))
  ∧ OracleDataSource.get_dataframe None false self
    = OracleDataSource.get_dataframe (Some ∅) false self.
Proof.
  intros Hc self self_config kw. subst self self_config kw.
  unfold OracleDataSource.__init__. rewrite Hc. simpl.
  split; [|split; [|done]].
  - intros Hq. run. unfold getitem. simpl. by rewrite Hq.
  - intros query Hq. split.
    + intros Hcon Hpar. apply contains_false in Hcon, Hpar.
      run. unfold getitem, repeats. simpl. by rewrite Hq, Hcon, Hpar.
    + intros Hrep. run. unfold getitem, repeats. simpl. rewrite Hq.
      destruct Hrep as [H|H]; apply contains_true in H; rewrite H; simpl.
      * done.
      * by destruct (contains _ "con").
Qed.

Lemma constructed_oracle_source_get_dataframe_witness :
  OracleDataSource.get_dataframe (Some {[ "id" := VInt 387 ]}) false
    Sample.oracle_source
  = (Ok (pd_read_sql_fillna (VStr "SELECT * FROM somewhere.my_table")
           (Connection 1) {[ "id" := VInt 387 ]} ∅),
     Sample.oracle_source).
Proof.
  exact (proj1 (proj1 (proj2 (constructed_oracle_source_get_dataframe
    (Some Sample.driver_up) Sample.environ "my_datasource"
    Sample.query_config Sample.dbms_config (Connection 1)
    (Some {[ "id" := VInt 387 ]}) eq_refl))
    (VStr "SELECT * FROM somewhere.my_table") eq_refl) eq_refl eq_refl).
Defined.

(** ** Calls after calls *)

Lemma FileDataSink_put_dataframe_after_default df params buffer
    (self : FileDataSink.t) :
  FileDataSink.options self !! "index" = None →
  (FileDataSink.put_dataframe df params buffer
     (FileDataSink.setitem_options "index" (VBool false) self)).1
  = (FileDataSink.put_dataframe df params buffer self).1.
Proof.
  intros Hnone%contains_false. destruct buffer; [done|].
  destruct self as [b ty p]. run.
  rewrite FileDataSink_options_setitem, contains_insert, Hnone. simpl.
  by repeat case_bool_decide.
Qed.

Lemma OracleDataSink_put_dataframe_after_default df params buffer
    (self : OracleDataSink.t) :
  OracleDataSink.options self !! "index" = None →
  (OracleDataSink.put_dataframe df params buffer
     (OracleDataSink.setitem_options "index" (VBool false) self)).1
  = (OracleDataSink.put_dataframe df params buffer self).1.
Proof.
  intros Hnone%contains_false. destruct buffer; [done|].
  destruct self as [b dc conn]. run. unfold getitem. simpl.
  destruct (entries _ !! "table"); [|done].
  rewrite OracleDataSink_options_setitem, contains_insert, Hnone. simpl.
  destruct conn; simpl; [|done].
  by match goal with |- context [if ?b then _ else _] => destruct b end.
Qed.

Lemma OracleDataSink_call_state (c : sink_call) (self : OracleDataSink.t) :
  (OracleDataSink_call c self).2 = self
  ∨ (OracleDataSink.options self !! "index" = None
     ∧ (OracleDataSink_call c self).2
       = OracleDataSink.setitem_options "index" (VBool false) self).
Proof.
  destruct c as [df params buffer|raw_data params buffer]; simpl;
    [|by left].
  rewrite OracleDataSink_put_dataframe_state.
  destruct buffer; [by left|].
  destruct (entries _ !! "table"); [|by left].
  destruct (contains _ "index") eqn:E; [by left|].
  right. by apply contains_false in E.
Qed.

(** X15. What [put_dataframe] returns, raises and hands to the writer
    does not depend on the calls made on the sink before: after any
    sequence of earlier calls the outcome is the one the same call has on
    the instance as constructed.  So the default written into the options
    by a first call changes nothing for the calls that follow. *)
Theorem put_dataframe_outcome_is_independent_of_history
    (df : DataFrame) (params : option (gmap string value)) (buffer : bool)
    (earlier : list sink_call)
    (fsnk : FileDataSink.t) (osnk : OracleDataSink.t) :
  (FileDataSink.put_dataframe df params buffer
     (after_calls FileDataSink_call earlier fsnk)).1
  = (FileDataSink.put_dataframe df params buffer fsnk).1
  ∧ (OracleDataSink.put_dataframe df params buffer
       (after_calls OracleDataSink_call earlier osnk)).1
    = (OracleDataSink.put_dataframe df params buffer osnk).1.
Proof.
  split.
  - revert fsnk. induction earlier as [|c cs IH]; intros fsnk; [done|].
    simpl. rewrite IH.
    destruct (FileDataSink_call_state c fsnk) as [->|[Hnone ->]]; [done|].
    by apply FileDataSink_put_dataframe_after_default.
  - revert osnk. induction earlier as [|c cs IH]; intros osnk; [done|].
    simpl. rewrite IH.
    destruct (OracleDataSink_call_state c osnk) as [->|[Hnone ->]]; [done|].
    by apply OracleDataSink_put_dataframe_after_default.
Qed.

(** X16. [put_raw] does depend on the calls made before.  On a
    [text_file] or [binary_file] sink whose options have no [index] key,
    an unbuffered [put_dataframe] is rejected, and a [put_raw] that
    follows it opens the file with the keyword [index := False] added to
    the configured options, while on the fresh instance it opens the file
    with the configured options alone. *)
Theorem put_raw_after_rejected_put_dataframe
    (df : DataFrame) (raw_data : Raw)
    (params params' : option (gmap string value)) (fsnk : FileDataSink.t) :
  raw_type (FileDataSink.type fsnk) →
  FileDataSink.options fsnk !! "index" = None →
  ∃ mode,
    (FileDataSink.put_raw raw_data params' false fsnk).1
    = Ok (open_write (FileDataSink.path fsnk) mode
            (FileDataSink.options fsnk) raw_data)
    ∧ (FileDataSink.put_raw raw_data params' false
         (FileDataSink.put_dataframe df params false fsnk).2).1
      = Ok (open_write (FileDataSink.path fsnk) mode
              (<["index" := VBool false]> (FileDataSink.options fsnk))
              raw_data).
Proof.
  intros Hty Hnone. rewrite FileDataSink_put_dataframe_state.
  apply contains_false in Hnone. rewrite Hnone.
  destruct fsnk as [b ty p]; simpl in *.
  destruct Hty as [->| ->]; [exists "w" | exists "wb"]; by split.
Qed.

Lemma put_raw_after_rejected_put_dataframe_witness :
  ∃ mode,
    (FileDataSink.put_raw (RawStr "text") None false Sample.text_sink).1
    = Ok (open_write (VStr "/some/file.txt") mode ∅ (RawStr "text"))
    ∧ (FileDataSink.put_raw (RawStr "text") None false
         (FileDataSink.put_dataframe Sample.frame None false
            Sample.text_sink).2).1
      = Ok (open_write (VStr "/some/file.txt") mode
              (<["index" := VBool false]> ∅) (RawStr "text")).
Proof.
  refine (put_raw_after_rejected_put_dataframe Sample.frame (RawStr "text")
    None None Sample.text_sink _ eq_refl).
  left; reflexivity.
Defined.

(** ** What a backend touches *)

Lemma FileDataSource_call_file (c : source_call) (self : FileDataSource.t)
    call :
  (FileDataSource_call c self).1 = Ok call →
  file_of call = Some (FileDataSource.path self) ∧ connection_of call = None.
Proof.
  destruct self as [b ty p].
  destruct c as [params [|]|params [|]]; simpl; try done; run; simpl;
    repeat case_bool_decide; simpl; try done;
    try (by intros [= <-]).
  destruct (splat _ _); simpl; [|done]. by intros [= <-].
Qed.

Lemma FileDataSink_call_file (c : sink_call) (self : FileDataSink.t) call :
  (FileDataSink_call c self).1 = Ok call →
  file_of call = Some (FileDataSink.path self) ∧ connection_of call = None.
Proof.
  destruct self as [b ty p].
  destruct c as [df params [|]|raw_data params [|]]; simpl; try done;
    run; simpl.
  - destruct (contains _ "index"); simpl;
      repeat case_bool_decide; simpl; try done;
      try (by intros [= <-]);
      (destruct (splat _ _); simpl; [|done]; by intros [= <-]).
  - repeat case_bool_decide; simpl; try done; by intros [= <-].
Qed.

Lemma OracleDataSource_call_connection (c : source_call)
    (self : OracleDataSource.t) call :
  (OracleDataSource_call c self).1 = Ok call →
  file_of call = None
  ∧ connection_of call = OracleDataSource.connection self.
Proof.
  destruct self as [b dc conn].
  destruct c as [params [|]|params buffer]; simpl; try done.
  run. unfold getitem. simpl.
  destruct (entries _ !! "query"); [|done].
  destruct conn; simpl; [|done].
  match goal with |- context [if ?b then _ else _] => destruct b end;
    [done|]. by intros [= <-].
Qed.

Lemma OracleDataSink_call_uses_connection (c : sink_call)
    (self : OracleDataSink.t) call :
  (OracleDataSink_call c self).1 = Ok call →
  file_of call = None
  ∧ connection_of call = OracleDataSink.connection self.
Proof.
  destruct c as [df params [|]|raw_data params buffer]; simpl; try done.
  rewrite OracleDataSink_put_dataframe_result.
  destruct (entries _ !! "table"); [|done].
  destruct (OracleDataSink.connection self); [|done].
  cbv zeta. destruct (repeats _ _); [done|]. by intros [= <-].
Qed.

(** X17. A backend only ever touches its own resource.  Whatever calls
    came before, a library call made by a file source or sink works on
    the path the instance was given and on no connection, and a library
    call made by a database source or sink works on the connection of the
    instance and on no file. *)
Theorem backends_touch_only_their_own_resource
    (reads : list source_call) (writes : list sink_call)
    (read : source_call) (write : sink_call) (call : libcall)
    (fsrc : FileDataSource.t) (fsnk : FileDataSink.t)
    (osrc : OracleDataSource.t) (osnk : OracleDataSink.t) :
  ((FileDataSource_call read
      (after_calls FileDataSource_call reads fsrc)).1 = Ok call →
   file_of call = Some (FileDataSource.path fsrc)
   ∧ connection_of call = None)
  ∧ ((FileDataSink_call write
        (after_calls FileDataSink_call writes fsnk)).1 = Ok call →
     file_of call = Some (FileDataSink.path fsnk)
     ∧ connection_of call = None)
  ∧ ((OracleDataSource_call read
        (after_calls OracleDataSource_call reads osrc)).1 = Ok call →
     file_of call = None
     ∧ connection_of call = OracleDataSource.connection osrc)
  ∧ ((OracleDataSink_call write
        (after_calls OracleDataSink_call writes osnk)).1 = Ok call →
     file_of call = None
     ∧ connection_of call = OracleDataSink.connection osnk).
Proof.
  split; [|split; [|split]].
  - rewrite FileDataSource_after_calls. apply FileDataSource_call_file.
  - intros H%FileDataSink_call_file.
    assert (Hpath : FileDataSink.path
        (after_calls FileDataSink_call writes fsnk) = FileDataSink.path fsnk).
    { clear H. revert fsnk.
      induction writes as [|c cs IH]; intros fsnk; [done|]. simpl.
      rewrite IH.
      by destruct (FileDataSink_call_state c fsnk) as [->|[_ ->]]. }
    by rewrite Hpath in H.
  - rewrite OracleDataSource_after_calls.
    apply OracleDataSource_call_connection.
  - intros H%OracleDataSink_call_uses_connection.
    by rewrite OracleDataSink_after_calls_connection in H.
Qed.

Lemma backends_touch_only_their_own_resource_witness :
  file_of (to_csv Sample.frame (VStr "/some/file.csv")
             {[ "index" := VBool false ]})
  = Some (FileDataSink.path Sample.csv_sink)
  ∧ connection_of (to_sql Sample.frame (VStr "somewhere.my_table")
                     (Connection 1) {[ "index" := VBool false ]})
    = OracleDataSink.connection Sample.oracle_sink.
Proof.
  split.
  - exact (proj1 (proj1 (proj2 (backends_touch_only_their_own_resource
      [] [call_put_raw (RawStr "text") None false]
      (call_get_raw None false)
      (call_put_dataframe Sample.frame None false)
      (to_csv Sample.frame (VStr "/some/file.csv")
         {[ "index" := VBool false ]})
      Sample.csv_source Sample.csv_sink Sample.oracle_source
      Sample.oracle_sink)) eq_refl)).
  - exact (proj2 (proj2 (proj2 (proj2
      (backends_touch_only_their_own_resource
      [] [call_put_dataframe Sample.frame None false]
      (call_get_raw None false)
      (call_put_dataframe Sample.frame None false)
      (to_sql Sample.frame (VStr "somewhere.my_table") (Connection 1)
         {[ "index" := VBool false ]})
      Sample.csv_source Sample.csv_sink Sample.oracle_source
      Sample.oracle_sink))) eq_refl)).
Defined.
